(** * DHCPv6 server configuration: [src/bin/dhcp6/json_config_parser.cc]

    A shallow embedding of the three pieces of code of that file:

    - [RSOOListConfigParser::parse] (the relay-supplied-options list),
    - [configureCommandChannel] (control-socket reconciliation),
    - [configureDhcp6Server] (parse, then commit or roll back),

    with the small [Dhcp6ConfigParser] for the two global scalars.

    The file calls into many libraries (libdhcp++, dhcpsrv, cc, hooks,
    config).  Their state is carried in a record [World]; code that can
    throw runs in a state-and-exception monad in which the state written
    before a [throw] stays written, as in C++. *)

From Stdlib Require Import String Ascii List ZArith Bool Lia DecimalString.
Import ListNotations.

Local Open Scope string_scope.
Local Open Scope Z_scope.

Set Warnings "-register-all".

(** ** cc/data.h: the configuration tree *)

Module Data.

(** [Element::Position]: file, line and column of a node. *)
Record Position : Type := mkPosition {
  file_ : string;
  line_ : N;
  pos_ : N
}.

(** [Element::ZERO_POSITION()], carried by elements made with
    [Element::create]. *)
Definition ZERO_POSITION : Position := mkPosition "" 0%N 0%N.

(** [isc::data::Element].  A map element holds a [std::map], so its
    entries are kept as a list that is walked in the order of the keys. *)
Inductive Element : Type :=
| NullElement (p : Position)
| IntElement (p : Position) (i : Z)
| BoolElement (p : Position) (b : bool)
| StringElement (p : Position) (s : string)
| ListElement (p : Position) (l : list Element)
| MapElement (p : Position) (m : list (string * Element)).

Definition getPosition (e : Element) : Position :=
  match e with
  | NullElement p | IntElement p _ | BoolElement p _
  | StringElement p _ | ListElement p _ | MapElement p _ => p
  end.

Definition stringValue (e : Element) : option string :=
  match e with StringElement _ s => Some s | _ => None end.

Definition listValue (e : Element) : option (list Element) :=
  match e with ListElement _ l => Some l | _ => None end.

Definition mapValue (e : Element) : option (list (string * Element)) :=
  match e with MapElement _ m => Some m | _ => None end.

Fixpoint find (m : list (string * Element)) (name : string) : option Element :=
  match m with
  | [] => None
  | (k, v) :: rest => if String.eqb k name then Some v else find rest name
  end.

(** [Element::get(name)] on a map: the null pointer when the key is
    missing. *)
Definition get (e : Element) (name : string) : option Element :=
  match e with MapElement _ m => find m name | _ => None end.

(** [std::map::operator[]] assignment: replace the entry of [name], or
    insert it at its place in key order. *)
Fixpoint map_set (m : list (string * Element)) (name : string) (v : Element)
  : list (string * Element) :=
  match m with
  | [] => [(name, v)]
  | (k, x) :: rest =>
      if String.eqb k name then (name, v) :: rest
      else if String.ltb name k then (name, v) :: (k, x) :: rest
      else (k, x) :: map_set rest name v
  end.

(** [Element::set(name, value)]: only a map accepts it. *)
Definition set (e : Element) (name : string) (v : Element) : option Element :=
  match e with
  | MapElement p m => Some (MapElement p (map_set m name v))
  | _ => None
  end.

(** Modelled from the spec: [Element::equals] (cc/data.cc is not among the
    sources), "structurally equal": same kind and same content, node by
    node; source positions take no part. *)
Fixpoint equals (a b : Element) : bool :=
  match a, b with
  | NullElement _, NullElement _ => true
  | IntElement _ i, IntElement _ j => Z.eqb i j
  | BoolElement _ x, BoolElement _ y => Bool.eqb x y
  | StringElement _ s, StringElement _ t => String.eqb s t
  | ListElement _ l, ListElement _ l' =>
      (fix all2 (xs ys : list Element) {struct xs} : bool :=
         match xs, ys with
         | [], [] => true
         | x :: xs', y :: ys' => equals x y && all2 xs' ys'
         | _, _ => false
         end) l l'
  | MapElement _ m, MapElement _ m' =>
      (fix all2 (xs ys : list (string * Element)) {struct xs} : bool :=
         match xs, ys with
         | [], [] => true
         | (k, x) :: xs', (k', y) :: ys' =>
             String.eqb k k' && equals x y && all2 xs' ys'
         | _, _ => false
         end) m m'
  | _, _ => false
  end.

End Data.
Import Data.

(** ** Exceptions and the monad of throwing, state-changing code *)

(** What a [catch] clause of the file can tell apart: [isc::Exception]
    (with [BadValue], [DhcpConfigError], [TypeError] below it), any other
    [std::exception], and everything else. *)
Inductive Exn : Type :=
| IscException (what : string)
| StdException (what : string)
| OtherException.

Inductive Res (A : Type) : Type :=
| Ret (a : A)
| Throw (e : Exn).
Arguments Ret {A} a.
Arguments Throw {A} e.

(** A computation over a state [S]: the state it leaves, and either a
    value or the exception that left it. *)
Definition M (S A : Type) : Type := S -> S * Res A.

Definition ret {S A : Type} (a : A) : M S A := fun s => (s, Ret a).

Definition throw {S A : Type} (e : Exn) : M S A := fun s => (s, Throw e).

Definition bind {S A B : Type} (m : M S A) (k : A -> M S B) : M S B :=
  fun s =>
    match m s with
    | (s', Ret a) => k a s'
    | (s', Throw e) => (s', Throw e)
    end.

Definition try_catch {S A : Type} (m : M S A) (handler : Exn -> M S A) : M S A :=
  fun s =>
    match m s with
    | (s', Ret a) => (s', Ret a)
    | (s', Throw e) => handler e s'
    end.

Definition lift_res {S A : Type} (r : Res A) : M S A := fun s => (s, r).

Definition modify {S : Type} (f : S -> S) : M S unit := fun s => (f s, Ret tt).

Definition gets {S A : Type} (f : S -> A) : M S A := fun s => (s, Ret (f s)).

(** Run a computation on a part [P] of the state [S]. *)
Definition zoom {S P A : Type} (proj : S -> P) (upd : P -> S -> S) (m : M P A)
  : M S A :=
  fun s => let (p, r) := m (proj s) in (upd p s, r).

Declare Scope cfg_scope.
Delimit Scope cfg_scope with cfg.
Notation "x <- m ;; k" := (bind m (fun x => k))
  (at level 61, m at next level, right associativity) : cfg_scope.
Notation "m ;; k" := (bind m (fun _ => k))
  (at level 61, right associativity) : cfg_scope.
Local Open Scope cfg_scope.

(** ** boost::lexical_cast<int64_t> *)

Module Lexical.

Definition digit_of (c : ascii) : option Z :=
  let n := Z.of_N (N_of_ascii c) in
  if (48 <=? n) && (n <=? 57) then Some (n - 48) else None.

Fixpoint parse_digits (s : string) (acc : Z) : option Z :=
  match s with
  | EmptyString => Some acc
  | String c rest =>
      match digit_of c with
      | Some d => parse_digits rest (10 * acc + d)
      | None => None
      end
  end.

(** The conversion of a [std::string] to [int64_t]: an optional sign, then
    one or more decimal digits and nothing else, the value within
    [-2^63 .. 2^63-1]; [None] stands for [bad_lexical_cast]. *)
Definition lexical_cast_int64 (s : string) : option Z :=
  match s with
  | EmptyString => None
  | String c rest =>
      let has_minus := Ascii.eqb c "-" in
      let digits := if has_minus || Ascii.eqb c "+" then rest else s in
      match digits with
      | EmptyString => None
      | _ =>
          match parse_digits digits 0 with
          | None => None
          | Some v =>
              if has_minus
              then if v <=? 2 ^ 63 then Some (- v) else None
              else if v <=? 2 ^ 63 - 1 then Some v else None
          end
      end
  end.

End Lexical.
Import Lexical.

(** [std::numeric_limits<uint16_t>::max()] *)
Definition UINT16_MAX : Z := 65535.

(** Conversion of an [int64_t] argument to a [uint16_t] parameter. *)
Definition to_uint16 (z : Z) : Z := z mod 65536.

(** [DHCP6_OPTION_SPACE] of dhcp/option_space.h. *)
Definition DHCP6_OPTION_SPACE : string := "dhcp6".

(** ** The libraries behind the file

    None of dhcpsrv, libdhcp++, cc/simple_parser, hooks or config is part
    of the file.  What they store is kept abstract ([Types]); what they do
    is taken as given ([Env]), each operation with the footprint that its
    call in the file shows: the object it is handed, or the staging
    configuration for the parsers that reach it through [CfgMgr]. *)

Record Types : Type := mkTypes {
  OptionDefSpaceContainer : Type;
  CfgOptionDef : Type;
  CfgOption : Type;
  CfgMACSource : Type;
  CfgDUID : Type;
  CfgIface : Type;
  HooksConfig : Type;
  D2ClientConfig : Type;
  ClientClassDictionary : Type;
  CfgDbAccess : Type;
  CfgRSOO : Type;
  (** subnets, host operations, lease expiration: the rest of [SrvConfig] *)
  SrvConfigRest : Type;
  TimerMgr : Type;
  CommandMgr : Type;
  HooksManager : Type
}.

(** [DbAccessParser::DBType] *)
Inductive DBType : Type := LEASE_DB | HOSTS_DB.

(** [util::StagedValue<V>], the holder of libdhcp++'s runtime option
    definitions.

    Modelled from the spec: libdhcp++ is not among the sources; runtime
    definitions "can be staged and reverted as a unit": a committed value
    and, when one was set and not yet committed, a staged value that is
    the one in force. *)
Record StagedValue (V : Type) : Type := mkStagedValue {
  staged_ : option V;
  committed_ : V
}.
Arguments mkStagedValue {V} staged_ committed_.
Arguments staged_ {V} s.
Arguments committed_ {V} s.

Definition getValue {V : Type} (s : StagedValue V) : V :=
  match staged_ s with Some v => v | None => committed_ s end.

Definition setValue {V : Type} (v : V) (s : StagedValue V) : StagedValue V :=
  mkStagedValue (Some v) (committed_ s).

Definition revert {V : Type} (s : StagedValue V) : StagedValue V :=
  mkStagedValue None (committed_ s).

Section Server.

Context {T : Types}.

(** [SrvConfig]: one configuration generation. *)
Record SrvConfig : Type := mkSrvConfig {
  cfg_option_def : CfgOptionDef T;
  cfg_option : CfgOption T;
  mac_sources : CfgMACSource T;
  control_socket_info : option Element;
  cfg_duid : CfgDUID T;
  cfg_iface : CfgIface T;
  hooks_config : HooksConfig T;
  d2_client_config : D2ClientConfig T;
  client_class_dictionary : ClientClassDictionary T;
  cfg_db_access : CfgDbAccess T;
  cfg_rsoo : CfgRSOO T;
  decline_period : Z;
  dhcp4o6_port : Z;
  srv_rest : SrvConfigRest T
}.

Definition set_cfg_option_def (v : CfgOptionDef T) (c : SrvConfig) : SrvConfig :=
  mkSrvConfig v (cfg_option c) (mac_sources c) (control_socket_info c)
    (cfg_duid c) (cfg_iface c) (hooks_config c) (d2_client_config c)
    (client_class_dictionary c) (cfg_db_access c) (cfg_rsoo c)
    (decline_period c) (dhcp4o6_port c) (srv_rest c).

Definition set_cfg_option (v : CfgOption T) (c : SrvConfig) : SrvConfig :=
  mkSrvConfig (cfg_option_def c) v (mac_sources c) (control_socket_info c)
    (cfg_duid c) (cfg_iface c) (hooks_config c) (d2_client_config c)
    (client_class_dictionary c) (cfg_db_access c) (cfg_rsoo c)
    (decline_period c) (dhcp4o6_port c) (srv_rest c).

Definition set_mac_sources (v : CfgMACSource T) (c : SrvConfig) : SrvConfig :=
  mkSrvConfig (cfg_option_def c) (cfg_option c) v (control_socket_info c)
    (cfg_duid c) (cfg_iface c) (hooks_config c) (d2_client_config c)
    (client_class_dictionary c) (cfg_db_access c) (cfg_rsoo c)
    (decline_period c) (dhcp4o6_port c) (srv_rest c).

Definition set_cfg_duid (v : CfgDUID T) (c : SrvConfig) : SrvConfig :=
  mkSrvConfig (cfg_option_def c) (cfg_option c) (mac_sources c)
    (control_socket_info c) v (cfg_iface c) (hooks_config c)
    (d2_client_config c) (client_class_dictionary c) (cfg_db_access c)
    (cfg_rsoo c) (decline_period c) (dhcp4o6_port c) (srv_rest c).

Definition set_cfg_iface (v : CfgIface T) (c : SrvConfig) : SrvConfig :=
  mkSrvConfig (cfg_option_def c) (cfg_option c) (mac_sources c)
    (control_socket_info c) (cfg_duid c) v (hooks_config c)
    (d2_client_config c) (client_class_dictionary c) (cfg_db_access c)
    (cfg_rsoo c) (decline_period c) (dhcp4o6_port c) (srv_rest c).

Definition set_hooks_config (v : HooksConfig T) (c : SrvConfig) : SrvConfig :=
  mkSrvConfig (cfg_option_def c) (cfg_option c) (mac_sources c)
    (control_socket_info c) (cfg_duid c) (cfg_iface c) v
    (d2_client_config c) (client_class_dictionary c) (cfg_db_access c)
    (cfg_rsoo c) (decline_period c) (dhcp4o6_port c) (srv_rest c).

Definition setD2ClientConfig (v : D2ClientConfig T) (c : SrvConfig) : SrvConfig :=
  mkSrvConfig (cfg_option_def c) (cfg_option c) (mac_sources c)
    (control_socket_info c) (cfg_duid c) (cfg_iface c) (hooks_config c) v
    (client_class_dictionary c) (cfg_db_access c) (cfg_rsoo c)
    (decline_period c) (dhcp4o6_port c) (srv_rest c).

Definition setClientClassDictionary (v : ClientClassDictionary T) (c : SrvConfig)
  : SrvConfig :=
  mkSrvConfig (cfg_option_def c) (cfg_option c) (mac_sources c)
    (control_socket_info c) (cfg_duid c) (cfg_iface c) (hooks_config c)
    (d2_client_config c) v (cfg_db_access c) (cfg_rsoo c)
    (decline_period c) (dhcp4o6_port c) (srv_rest c).

Definition set_cfg_db_access (v : CfgDbAccess T) (c : SrvConfig) : SrvConfig :=
  mkSrvConfig (cfg_option_def c) (cfg_option c) (mac_sources c)
    (control_socket_info c) (cfg_duid c) (cfg_iface c) (hooks_config c)
    (d2_client_config c) (client_class_dictionary c) v (cfg_rsoo c)
    (decline_period c) (dhcp4o6_port c) (srv_rest c).

Definition set_cfg_rsoo (v : CfgRSOO T) (c : SrvConfig) : SrvConfig :=
  mkSrvConfig (cfg_option_def c) (cfg_option c) (mac_sources c)
    (control_socket_info c) (cfg_duid c) (cfg_iface c) (hooks_config c)
    (d2_client_config c) (client_class_dictionary c) (cfg_db_access c) v
    (decline_period c) (dhcp4o6_port c) (srv_rest c).

Definition setDeclinePeriod (v : Z) (c : SrvConfig) : SrvConfig :=
  mkSrvConfig (cfg_option_def c) (cfg_option c) (mac_sources c)
    (control_socket_info c) (cfg_duid c) (cfg_iface c) (hooks_config c)
    (d2_client_config c) (client_class_dictionary c) (cfg_db_access c)
    (cfg_rsoo c) v (dhcp4o6_port c) (srv_rest c).

Definition setDhcp4o6Port (v : Z) (c : SrvConfig) : SrvConfig :=
  mkSrvConfig (cfg_option_def c) (cfg_option c) (mac_sources c)
    (control_socket_info c) (cfg_duid c) (cfg_iface c) (hooks_config c)
    (d2_client_config c) (client_class_dictionary c) (cfg_db_access c)
    (cfg_rsoo c) (decline_period c) v (srv_rest c).

Definition setControlSocketInfo (v : option Element) (c : SrvConfig) : SrvConfig :=
  mkSrvConfig (cfg_option_def c) (cfg_option c) (mac_sources c) v
    (cfg_duid c) (cfg_iface c) (hooks_config c) (d2_client_config c)
    (client_class_dictionary c) (cfg_db_access c) (cfg_rsoo c)
    (decline_period c) (dhcp4o6_port c) (srv_rest c).

(** The collaborators.  A parser that is handed an object changes that
    object; the parsers called with the tree alone reach the staging
    configuration through [CfgMgr::instance()]; the parsers of option data
    read the runtime option definitions in force; the subnet parser draws
    subnet identifiers from [Subnet::static_id_]. *)
Record Env : Type := mkEnv {
  (* cc/data *)
  position_str : Position -> string;
  TypeError_what : string -> Element -> string;
  (* libdhcp++ *)
  getOptionDef : string -> string -> option Z;
  empty_OptionDefSpaceContainer : OptionDefSpaceContainer T;
  (* dhcpsrv *)
  unregisterTimers : TimerMgr T -> TimerMgr T;
  CfgRSOO_enable : Z -> CfgRSOO T -> CfgRSOO T;
  (* dhcpsrv/parsers *)
  setAllDefaults : Element -> Res Element;
  deriveParameters : Element -> Res Element;
  getUint32 : Element -> string -> Res Z;
  getUint16 : Element -> string -> Res Z;
  OptionDefListParser_parse :
    Element -> M (CfgOptionDef T * option (OptionDefSpaceContainer T)) unit;
  OptionDataListParser_parse :
    OptionDefSpaceContainer T -> Element -> M (CfgOption T) unit;
  MACSourcesListConfigParser_parse : Element -> M (CfgMACSource T) unit;
  ControlSocketParser_parse : Element -> M SrvConfig unit;
  HostReservationIdsParser6_parse : Element -> M SrvConfig unit;
  DUIDConfigParser_parse : Element -> M (CfgDUID T) unit;
  IfacesConfigParser_parse : Element -> M (CfgIface T) unit;
  ExpirationConfigParser_parse : Element -> M SrvConfig unit;
  HooksLibrariesParser_parse : Element -> M (HooksConfig T) unit;
  verifyLibraries : Position -> HooksConfig T -> Res unit;
  D2ClientConfigParser_setAllDefaults : Element -> Res Element;
  D2ClientConfigParser_parse : Element -> Res (D2ClientConfig T);
  ClientClassDefListParser_parse :
    OptionDefSpaceContainer T -> Element -> Res (ClientClassDictionary T);
  DbAccessParser_parse : DBType -> Element -> M (CfgDbAccess T) unit;
  Subnets6ListConfigParser_parse :
    OptionDefSpaceContainer T -> Element -> M (SrvConfig * Z) unit;
  (* config/command_mgr, hooks *)
  closeCommandSocket : CommandMgr T -> CommandMgr T;
  openCommandSocket : Element -> M (CommandMgr T) unit;
  loadLibraries : HooksConfig T -> M (HooksManager T) unit
}.

(** [CfgMgr]: the staging and the current configuration, and the D2
    client configuration in force.

    Modelled from the spec: dhcpsrv/cfgmgr is not among the sources; the
    manager "owns exactly one Staging and one Current configuration at a
    time", [getStagingCfg] and [getCurrentCfg] hand them out, and the
    "dynamic-DNS client configuration setter" is a "pure data
    assignment". *)
Record CfgMgr : Type := mkCfgMgr {
  getStagingCfg : SrvConfig;
  getCurrentCfg : SrvConfig;
  d2_client_mgr : D2ClientConfig T
}.

(** The calls into collaborators that the properties below speak about,
    in the order in which they were made. *)
Inductive Call : Type :=
| SectionParser (key : string)
| CloseCommandSocket
| OpenCommandSocket (sock_cfg : Element)
| SetD2ClientConfig
| LoadLibraries.

(** Everything the file reads or writes through singletons and statics. *)
Record World : Type := mkWorld {
  subnet_static_id : Z;
  timer_mgr : TimerMgr T;
  runtime_option_defs : StagedValue (OptionDefSpaceContainer T);
  cfg_mgr : CfgMgr;
  command_mgr : CommandMgr T;
  hooks_manager : HooksManager T;
  calls : list Call
}.

Definition set_subnet_static_id (v : Z) (w : World) : World :=
  mkWorld v (timer_mgr w) (runtime_option_defs w) (cfg_mgr w) (command_mgr w)
    (hooks_manager w) (calls w).

Definition set_timer_mgr (v : TimerMgr T) (w : World) : World :=
  mkWorld (subnet_static_id w) v (runtime_option_defs w) (cfg_mgr w)
    (command_mgr w) (hooks_manager w) (calls w).

Definition set_runtime_option_defs (v : StagedValue (OptionDefSpaceContainer T))
  (w : World) : World :=
  mkWorld (subnet_static_id w) (timer_mgr w) v (cfg_mgr w) (command_mgr w)
    (hooks_manager w) (calls w).

Definition set_cfg_mgr (v : CfgMgr) (w : World) : World :=
  mkWorld (subnet_static_id w) (timer_mgr w) (runtime_option_defs w) v
    (command_mgr w) (hooks_manager w) (calls w).

Definition set_command_mgr (v : CommandMgr T) (w : World) : World :=
  mkWorld (subnet_static_id w) (timer_mgr w) (runtime_option_defs w)
    (cfg_mgr w) v (hooks_manager w) (calls w).

Definition set_hooks_manager (v : HooksManager T) (w : World) : World :=
  mkWorld (subnet_static_id w) (timer_mgr w) (runtime_option_defs w)
    (cfg_mgr w) (command_mgr w) v (calls w).

Definition record_call (c : Call) (w : World) : World :=
  mkWorld (subnet_static_id w) (timer_mgr w) (runtime_option_defs w)
    (cfg_mgr w) (command_mgr w) (hooks_manager w) (calls w ++ [c]).

Definition staging (w : World) : SrvConfig := getStagingCfg (cfg_mgr w).

Definition set_staging (c : SrvConfig) (w : World) : World :=
  set_cfg_mgr (mkCfgMgr c (getCurrentCfg (cfg_mgr w)) (d2_client_mgr (cfg_mgr w))) w.

Definition current (w : World) : SrvConfig := getCurrentCfg (cfg_mgr w).

Variable env : Env.

(** *** RSOOListConfigParser *)

(** The body of the loop of [RSOOListConfigParser::parse] up to the call
    of [enable]: the option code that the entry [option_str] stands for. *)
Definition RSOO_option_code (option_str : string) : Res Z :=
  let tried : Res Z :=
    match lexical_cast_int64 option_str with
    | Some code =>
        if code <? 0 then
          Throw (IscException
            ("invalid option code value specified '" ++ option_str
             ++ "', the option code must be a non-negative value"))
        else if code >? UINT16_MAX then
          Throw (IscException
            ("invalid option code value specified '" ++ option_str
             ++ "', the option code must not be greater than '65535'"))
        else Ret code
    | None => Ret 0
    end in
  match tried with
  | Throw e => Throw e
  | Ret code =>
      if code =? 0 then
        match getOptionDef env DHCP6_OPTION_SPACE option_str with
        | Some def_code => Ret def_code
        | None =>
            Throw (IscException
              ("unable to find option code for the  specified option name '"
               ++ option_str ++ "' while parsing the list of enabled"
               ++ " relay-supplied-options"))
        end
      else Ret code
  end.

Definition RSOO_source_elem (source_elem : Element) : M SrvConfig unit :=
  match stringValue source_elem with
  | None =>
      throw (IscException
               (TypeError_what env "stringValue() called on non-string Element"
                  source_elem))
  | Some option_str =>
      code <- lift_res (RSOO_option_code option_str) ;;
      modify (fun cfg =>
                set_cfg_rsoo (CfgRSOO_enable env (to_uint16 code) (cfg_rsoo cfg)) cfg)
  end.

Fixpoint RSOO_foreach (sources : list Element) : M SrvConfig unit :=
  match sources with
  | [] => ret tt
  | source_elem :: rest => RSOO_source_elem source_elem ;; RSOO_foreach rest
  end.

Definition RSOOListConfigParser_parse (value : Element) : M SrvConfig unit :=
  try_catch
    (match listValue value with
     | None =>
         throw (IscException
                  (TypeError_what env "listValue() called on non-list Element"
                     value))
     | Some sources => RSOO_foreach sources
     end)
    (fun ex =>
       match ex with
       | IscException what | StdException what =>
           throw (IscException
                    (what ++ " (" ++ position_str env (getPosition value) ++ ")"))
       | OtherException => throw OtherException
       end).

(** *** Dhcp6ConfigParser *)

Definition Dhcp6ConfigParser_parse (global : Element) : M SrvConfig unit :=
  probation_period <- lift_res (getUint32 env global "decline-probation-period") ;;
  modify (setDeclinePeriod probation_period) ;;
  dhcp4o6_port <- lift_res (getUint16 env global "dhcp4o6-port") ;;
  modify (setDhcp4o6Port dhcp4o6_port).

(** *** configureCommandChannel *)

Definition configureCommandChannel : M World unit :=
  fun w =>
    let sock_cfg := control_socket_info (staging w) in
    let current_sock_cfg := control_socket_info (current w) in
    let sock_changed :=
      match sock_cfg, current_sock_cfg with
      | Some new_cfg, Some old_cfg => negb (equals new_cfg old_cfg)
      | _, _ => false
      end in
    let absent (p : option Element) :=
      match p with Some _ => false | None => true end in
    if absent sock_cfg || absent current_sock_cfg || sock_changed then
      (modify (fun w' =>
                 record_call CloseCommandSocket
                   (set_command_mgr (closeCommandSocket env (command_mgr w')) w')) ;;
       match sock_cfg with
       | Some new_cfg =>
           modify (record_call (OpenCommandSocket new_cfg)) ;;
           zoom command_mgr set_command_mgr (openCommandSocket env new_cfg)
       | None => ret tt
       end) w
    else ret tt w.

(** *** configureDhcp6Server: the parsing block *)

Definition on_staging {A : Type} (m : M SrvConfig A) : M World A :=
  zoom staging set_staging m.

Definition on_part {P A : Type} (proj : SrvConfig -> P)
  (upd : P -> SrvConfig -> SrvConfig) (m : M P A) : M World A :=
  on_staging (zoom proj upd m).

(** The runtime option definitions in force, as the option-data parsers
    look them up. *)
Definition runtime_defs (w : World) : OptionDefSpaceContainer T :=
  getValue (runtime_option_defs w).

(** A Section Parser is entered: the call is recorded, then it runs. *)
Definition section_parser {A : Type} (key : string) (m : M World A) : M World A :=
  modify (record_call (SectionParser key)) ;; m.

(** [OptionDefListParser::parse(cfg_option_def, option_defs)]: fills the
    staging option definitions and hands them to libdhcp++ as staged
    runtime definitions. *)
Definition parse_option_defs (option_defs : Element) : M World unit :=
  section_parser "option-def"
    (zoom
       (fun w => (cfg_option_def (staging w), staged_ (runtime_option_defs w)))
       (fun p w =>
          set_runtime_option_defs
            (mkStagedValue (snd p) (committed_ (runtime_option_defs w)))
            (set_staging (set_cfg_option_def (fst p) (staging w)) w))
       (OptionDefListParser_parse env option_defs)).

Definition parse_subnet6 (second : Element) : M World unit :=
  defs <- gets runtime_defs ;;
  zoom (fun w => (staging w, subnet_static_id w))
       (fun p w => set_subnet_static_id (snd p) (set_staging (fst p) w))
       (Subnets6ListConfigParser_parse env defs second).

(** The top-level keys that the loop of [configureDhcp6Server] consumes
    without calling a parser. *)
Definition global_scalar (first : string) : bool :=
  (String.eqb first "renew-timer") || (String.eqb first "rebind-timer")
  || (String.eqb first "preferred-lifetime") || (String.eqb first "valid-lifetime")
  || (String.eqb first "decline-probation-period") || (String.eqb first "dhcp4o6-port").

Definition unsupported_parameter (first : string) (second : Element) : string :=
  "unsupported global configuration parameter: " ++ first
  ++ " (" ++ position_str env (getPosition second) ++ ")".

(** The body of the loop over [values_map].  The value is the element of
    the pair as the body leaves it: two branches edit it in place. *)
Definition parse_config_pair (check_only : bool) (config_pair : string * Element)
  : M World Element :=
  let (first, second) := config_pair in
  if String.eqb first "option-def" then ret second
  else if String.eqb first "option-data" then
    section_parser first
      (defs <- gets runtime_defs ;;
       on_part cfg_option set_cfg_option
         (OptionDataListParser_parse env defs second)) ;;
    ret second
  else if String.eqb first "mac-sources" then
    section_parser first
      (on_part mac_sources set_mac_sources
         (MACSourcesListConfigParser_parse env second)) ;;
    ret second
  else if String.eqb first "control-socket" then
    section_parser first (on_staging (ControlSocketParser_parse env second)) ;;
    ret second
  else if String.eqb first "host-reservation-identifiers" then
    section_parser first
      (on_staging (HostReservationIdsParser6_parse env second)) ;;
    ret second
  else if String.eqb first "server-id" then
    section_parser first
      (on_part cfg_duid set_cfg_duid (DUIDConfigParser_parse env second)) ;;
    ret second
  else if String.eqb first "interfaces-config" then
    ifaces_cfg <-
      (if check_only then
         match set second "re-detect" (BoolElement ZERO_POSITION false) with
         | Some edited => ret edited
         | None =>
             throw (IscException
                      (TypeError_what env "set() called on non-map Element"
                         second))
         end
       else ret second) ;;
    section_parser first
      (on_part cfg_iface set_cfg_iface (IfacesConfigParser_parse env ifaces_cfg)) ;;
    ret ifaces_cfg
  else if String.eqb first "expired-leases-processing" then
    section_parser first (on_staging (ExpirationConfigParser_parse env second)) ;;
    ret second
  else if String.eqb first "hooks-libraries" then
    section_parser first
      (on_part hooks_config set_hooks_config
         (HooksLibrariesParser_parse env second) ;;
       libraries <- gets (fun w => hooks_config (staging w)) ;;
       lift_res (verifyLibraries env (getPosition second) libraries)) ;;
    ret second
  else if String.eqb first "dhcp-ddns" then
    section_parser first
      (defaulted <- lift_res (D2ClientConfigParser_setAllDefaults env second) ;;
       cfg <- lift_res (D2ClientConfigParser_parse env defaulted) ;;
       on_staging (modify (setD2ClientConfig cfg)) ;;
       ret defaulted)
  else if String.eqb first "client-classes" then
    section_parser first
      (defs <- gets runtime_defs ;;
       dictionary <- lift_res (ClientClassDefListParser_parse env defs second) ;;
       on_staging (modify (setClientClassDictionary dictionary))) ;;
    ret second
  else if String.eqb first "lease-database" then
    section_parser first
      (on_part cfg_db_access set_cfg_db_access
         (DbAccessParser_parse env LEASE_DB second)) ;;
    ret second
  else if String.eqb first "hosts-database" then
    section_parser first
      (on_part cfg_db_access set_cfg_db_access
         (DbAccessParser_parse env HOSTS_DB second)) ;;
    ret second
  else if String.eqb first "subnet6" then
    section_parser first (parse_subnet6 second) ;;
    ret second
  else if global_scalar first then ret second
  else if String.eqb first "relay-supplied-options" then
    section_parser first (on_staging (RSOOListConfigParser_parse second)) ;;
    ret second
  else throw (IscException (unsupported_parameter first second)).

(** [BOOST_FOREACH(config_pair, values_map)] *)
Fixpoint foreach_config_pair (check_only : bool)
  (values_map : list (string * Element)) : M World (list (string * Element)) :=
  match values_map with
  | [] => ret []
  | config_pair :: rest =>
      second <- parse_config_pair check_only config_pair ;;
      rest' <- foreach_config_pair check_only rest ;;
      ret ((fst config_pair, second) :: rest')
  end.

(** "We need definitions first" *)
Definition definitions_first (cfg : Element) : M World unit :=
  match get cfg "option-def" with
  | Some option_defs => parse_option_defs option_defs
  | None => ret tt
  end.

(** The [try] block of [configureDhcp6Server].  [srv_config] is the
    staging configuration that [CfgMgr] holds; the parsers reach it
    through [on_staging] and [on_part]. *)
Definition parse_block (check_only : bool) (mutable_cfg : Element) : M World unit :=
  defaulted <- lift_res (setAllDefaults env mutable_cfg) ;;
  derived <- lift_res (deriveParameters env defaulted) ;;
  values_map <-
    match mapValue derived with
    | Some m => ret m
    | None =>
        throw (IscException
                 (TypeError_what env "mapValue() called on non-map Element"
                    derived))
    end ;;
  definitions_first derived ;;
  values_map' <- foreach_config_pair check_only values_map ;;
  on_staging
    (Dhcp6ConfigParser_parse (MapElement (getPosition derived) values_map')).

(** *** configureDhcp6Server: the commit block *)

Definition commit_block : M World unit :=
  configureCommandChannel ;;
  cfg <- gets (fun w => d2_client_config (staging w)) ;;
  modify (fun w =>
            record_call SetD2ClientConfig
              (set_cfg_mgr
                 (mkCfgMgr (getStagingCfg (cfg_mgr w)) (getCurrentCfg (cfg_mgr w)) cfg)
                 w)) ;;
  libraries <- gets (fun w => hooks_config (staging w)) ;;
  modify (record_call LoadLibraries) ;;
  zoom hooks_manager set_hooks_manager (loadLibraries env libraries).

(** *** configureDhcp6Server *)

(** [isc::config::createAnswer(status, text)] *)
Record Answer : Type := createAnswer {
  status : Z;
  text : string
}.

Definition resetSubnetID (w : World) : World := set_subnet_static_id 1 w.

Definition revertRuntimeOptionDefs (w : World) : World :=
  set_runtime_option_defs (revert (runtime_option_defs w)) w.

Definition setRuntimeOptionDefs (defs : OptionDefSpaceContainer T) (w : World)
  : World :=
  set_runtime_option_defs (setValue defs (runtime_option_defs w)) w.

(** Lines 219 to 235: what is reset before the [try] block. *)
Definition prepare (check_only : bool) (w : World) : World :=
  let w := resetSubnetID w in
  let w := if negb check_only
           then set_timer_mgr (unregisterTimers env (timer_mgr w)) w
           else w in
  let w := revertRuntimeOptionDefs w in
  setRuntimeOptionDefs (empty_OptionDefSpaceContainer env) w.

Definition sane_text : string :=
  "Configuration seems sane. Control-socket, hook-libraries, and D2 "
  ++ "configuration were sanity checked, but not applied.".

Definition configureDhcp6Server (config_set : option Element) (check_only : bool)
  (w : World) : World * option Answer :=
  match config_set with
  | None => (w, Some (createAnswer 1 "Can't parse NULL config"))
  | Some mutable_cfg =>
      let w := prepare check_only w in
      (* try { ... } catch (isc::Exception) ... catch (...) *)
      let '(w, answer, rollback) :=
        match parse_block check_only mutable_cfg w with
        | (w', Ret _) => (w', None, false)
        | (w', Throw (IscException what)) =>
            (w', Some (createAnswer 1 what), true)
        | (w', Throw _) =>
            (w', Some (createAnswer 1
                         "undefined configuration processing error"), true)
        end in
      (* if (check_only) *)
      let '(answer, rollback) :=
        if check_only then
          (match answer with
           | Some a => Some a
           | None => Some (createAnswer 0 sane_text)
           end, true)
        else (answer, rollback) in
      (* if (!rollback) try { ... } catch ... *)
      let '(w, answer, rollback) :=
        if negb rollback then
          match commit_block w with
          | (w', Ret _) => (w', answer, rollback)
          | (w', Throw (IscException what)) =>
              (w', Some (createAnswer 2 what), true)
          | (w', Throw _) =>
              (w', Some (createAnswer 2
                           "undefined configuration parsing error"), true)
          end
        else (w, answer, rollback) in
      if rollback then (revertRuntimeOptionDefs w, answer)
      else (w, Some (createAnswer 0 "Configuration successful."))
  end.

(** *** The kinds of outcome of a call *)

Inductive Outcome : Type :=
| AbsentInput
| ParseFailure (e : Exn)
| CheckedOnly
| CommitFailure (e : Exn)
| Committed.

(** Which outcome a call has: read off the two blocks. *)
Definition classify (config_set : option Element) (check_only : bool) (w : World)
  : Outcome :=
  match config_set with
  | None => AbsentInput
  | Some mutable_cfg =>
      match parse_block check_only mutable_cfg (prepare check_only w) with
      | (_, Throw e) => ParseFailure e
      | (w1, Ret _) =>
          if check_only then CheckedOnly
          else match commit_block w1 with
               | (_, Throw e) => CommitFailure e
               | (_, Ret _) => Committed
               end
      end
  end.

Definition status_of (o : Outcome) : Z :=
  match o with
  | AbsentInput | ParseFailure _ => 1
  | CommitFailure _ => 2
  | CheckedOnly | Committed => 0
  end.



End Server.

Arguments SrvConfig T : clear implicits.
Arguments CfgMgr T : clear implicits.
Arguments World T : clear implicits.
Arguments Env T : clear implicits.

(** ** A small set of collaborators to run the code on

    Fragments that the file never looks into are [unit]; the others hold
    what their parser was given.  Default filling adds the two global
    scalars; hook libraries whose name is empty do not load. *)

Module Sample.

Definition types : Types := {|
  OptionDefSpaceContainer := list Element;
  CfgOptionDef := list Element;
  CfgOption := unit;
  CfgMACSource := unit;
  CfgDUID := unit;
  CfgIface := unit;
  HooksConfig := list string;
  D2ClientConfig := option Element;
  ClientClassDictionary := unit;
  CfgDbAccess := unit;
  CfgRSOO := list Z;
  SrvConfigRest := unit;
  TimerMgr := unit;
  CommandMgr := option Element;
  HooksManager := list string
|}.

Definition string_of_N (n : N) : string := NilZero.string_of_uint (N.to_uint n).

Definition show_position (p : Position) : string :=
  file_ p ++ ":" ++ string_of_N (line_ p) ++ ":" ++ string_of_N (pos_ p).

Definition lookup_option_def (space name : string) : option Z :=
  if String.eqb space "dhcp6" then
    if String.eqb name "subscriber-id" then Some 38
    else if String.eqb name "erp-local-domain-name" then Some 65
    else None
  else None.

(** [std::set<uint16_t>::insert] *)
Definition enable (code : Z) (s : list Z) : list Z :=
  if existsb (Z.eqb code) s then s else code :: s.

Definition default_scalar (name : string) (v : Z) (m : list (string * Element))
  : list (string * Element) :=
  match find m name with
  | Some _ => m
  | None => map_set m name (IntElement ZERO_POSITION v)
  end.

Definition fill_defaults (cfg : Element) : Res Element :=
  match cfg with
  | MapElement p m =>
      Ret (MapElement p
             (default_scalar "dhcp4o6-port" 0
                (default_scalar "decline-probation-period" 86400 m)))
  | _ => Throw (IscException "the configuration is not a map")
  end.

Definition getIntType (max : Z) (scope : Element) (name : string) : Res Z :=
  match get scope name with
  | Some (IntElement _ i) =>
      if (0 <=? i) && (i <=? max) then Ret i
      else Throw (IscException ("out of range value specified for parameter '"
                                ++ name ++ "'"))
  | _ => Throw (IscException ("missing or non-integer parameter '" ++ name ++ "'"))
  end.

Definition parse_option_def_list (option_defs : Element)
  : M (list Element * option (list Element)) unit :=
  fun st =>
    match listValue option_defs with
    | Some l => ((l, Some l), Ret tt)
    | None => (st, Throw (IscException "option-def: a list is expected"))
    end.

Fixpoint library_names (l : list Element) : list string :=
  match l with
  | StringElement _ s :: rest => s :: library_names rest
  | _ :: rest => library_names rest
  | [] => []
  end.

Definition parse_hooks_libraries (value : Element) : M (list string) unit :=
  fun libs =>
    match listValue value with
    | Some l => (library_names l, Ret tt)
    | None => (libs, Throw (IscException "hooks-libraries: a list is expected"))
    end.

(** Libraries load in order; the ones loaded before a failure stay. *)
Fixpoint load_libraries (libs : list string) : M (list string) unit :=
  match libs with
  | [] => ret tt
  | name :: rest =>
      if String.eqb name ""
      then throw (IscException "hooks libraries failed to load")
      else (modify (fun loaded => List.app loaded [name]) ;; load_libraries rest)%cfg
  end.

Definition accept {S : Type} (_ : Element) : M S unit := ret tt.

Definition env : Env types := {|
  position_str := show_position;
  TypeError_what := fun what _ => what;
  getOptionDef := lookup_option_def;
  empty_OptionDefSpaceContainer := [] : OptionDefSpaceContainer types;
  unregisterTimers := fun t => t;
  CfgRSOO_enable := enable : Z -> CfgRSOO types -> CfgRSOO types;
  setAllDefaults := fill_defaults;
  deriveParameters := fun cfg => Ret cfg;
  getUint32 := getIntType 4294967295;
  getUint16 := getIntType 65535;
  OptionDefListParser_parse := parse_option_def_list;
  OptionDataListParser_parse := fun _ => accept;
  MACSourcesListConfigParser_parse := accept;
  ControlSocketParser_parse :=
    fun value => modify (setControlSocketInfo (Some value));
  HostReservationIdsParser6_parse := accept;
  DUIDConfigParser_parse := accept;
  IfacesConfigParser_parse := accept;
  ExpirationConfigParser_parse := accept;
  HooksLibrariesParser_parse := parse_hooks_libraries;
  verifyLibraries := fun _ _ => Ret tt;
  D2ClientConfigParser_setAllDefaults := fun cfg => Ret cfg;
  D2ClientConfigParser_parse := fun cfg => Ret (Some cfg : D2ClientConfig types);
  ClientClassDefListParser_parse := fun _ _ => Ret (tt : ClientClassDictionary types);
  DbAccessParser_parse := fun _ => accept;
  Subnets6ListConfigParser_parse := fun _ => accept;
  closeCommandSocket := fun _ => None : CommandMgr types;
  openCommandSocket :=
    fun sock_cfg => modify (fun _ => Some sock_cfg : CommandMgr types);
  loadLibraries := load_libraries
|}.

(** A server that was never configured. *)
Definition empty_config : SrvConfig types :=
  mkSrvConfig (T := types) [] tt tt None tt tt [] None tt tt [] 0 0 tt.

Definition initial : World types :=
  mkWorld (T := types) 1 tt (mkStagedValue None [])
    (mkCfgMgr empty_config empty_config None) None [] [].

Definition at_ (l c : N) : Position := mkPosition "kea.conf" l c.


End Sample.

(** ** Relations and predicates that the properties are stated with *)

(** [m] takes every state to a state related to it by [R], whether it
    returns or throws. *)
Definition preserves {S A : Type} (R : S -> S -> Prop) (m : M S A) : Prop :=
  forall s, R s (fst (m s)).

(** A call of a Section Parser other than the one of option definitions. *)
Definition later_section (c : Call) : Prop :=
  exists key, c = SectionParser key /\ key <> "option-def".

(** A call of a Section Parser, whichever. *)
Definition any_section (c : Call) : Prop := exists key, c = SectionParser key.

Section Relations.

Context {T : Types}.

(** The parsing block: the current configuration, the D2 client
    configuration in force, the command channel, the loaded hooks, the
    timers and the committed runtime option definitions stay; the calls
    it adds all satisfy [P]. *)
Record parse_frame (P : Call -> Prop) (w w' : World T) : Prop := {
  pf_current : current w' = current w;
  pf_d2 : d2_client_mgr (cfg_mgr w') = d2_client_mgr (cfg_mgr w);
  pf_command : command_mgr w' = command_mgr w;
  pf_hooks : hooks_manager w' = hooks_manager w;
  pf_timers : timer_mgr w' = timer_mgr w;
  pf_committed :
    committed_ (runtime_option_defs w') = committed_ (runtime_option_defs w);
  pf_calls : exists new, calls w' = (calls w ++ new)%list /\ Forall P new
}.

(** The commit block leaves both configurations, the runtime option
    definitions, the subnet counter and the timers as they are. *)
Record commit_frame (w w' : World T) : Prop := {
  cf_staging : staging w' = staging w;
  cf_current : current w' = current w;
  cf_defs : runtime_option_defs w' = runtime_option_defs w;
  cf_subnet : subnet_static_id w' = subnet_static_id w;
  cf_timers : timer_mgr w' = timer_mgr w
}.

End Relations.

(** The text of the answer built by the [catch] clauses of the parsing
    block, and of the commit block. *)
Definition parse_error_text (e : Exn) : string :=
  match e with
  | IscException what => what
  | _ => "undefined configuration processing error"
  end.

Definition commit_error_text (e : Exn) : string :=
  match e with
  | IscException what => what
  | _ => "undefined configuration parsing error"
  end.

Section Paths.

Context {T : Types} (env : Env T).

(** The paths through [configureDhcp6Server] on a tree: the world and the
    answer that each one ends with, its kind of outcome, and what the
    blocks it ran leave alone. *)
Inductive configured (mutable_cfg : Element) (check_only : bool) (w : World T)
  : World T * option Answer -> Outcome -> Prop :=
| configured_parse_failure w1 e :
    parse_block env check_only mutable_cfg (prepare env check_only w) = (w1, Throw e) ->
    parse_frame any_section (prepare env check_only w) w1 ->
    configured mutable_cfg check_only w
      (revertRuntimeOptionDefs w1, Some (createAnswer 1 (parse_error_text e)))
      (ParseFailure e)
| configured_checked w1 :
    check_only = true ->
    parse_block env check_only mutable_cfg (prepare env check_only w) = (w1, Ret tt) ->
    parse_frame any_section (prepare env check_only w) w1 ->
    configured mutable_cfg check_only w
      (revertRuntimeOptionDefs w1, Some (createAnswer 0 sane_text)) CheckedOnly
| configured_commit_failure w1 w2 e :
    check_only = false ->
    parse_block env check_only mutable_cfg (prepare env check_only w) = (w1, Ret tt) ->
    parse_frame any_section (prepare env check_only w) w1 ->
    commit_block env w1 = (w2, Throw e) ->
    commit_frame w1 w2 ->
    configured mutable_cfg check_only w
      (revertRuntimeOptionDefs w2, Some (createAnswer 2 (commit_error_text e)))
      (CommitFailure e)
| configured_committed w1 w2 :
    check_only = false ->
    parse_block env check_only mutable_cfg (prepare env check_only w) = (w1, Ret tt) ->
    parse_frame any_section (prepare env check_only w) w1 ->
    commit_block env w1 = (w2, Ret tt) ->
    commit_frame w1 w2 ->
    configured mutable_cfg check_only w
      (w2, Some (createAnswer 0 "Configuration successful.")) Committed.

End Paths.

(** ** Runs on the sample collaborators *)

Module Runs.

Import Sample.

Definition top : Position := at_ 1 1.

(** [{ "relay-supplied-options": ["12"], "zzz": null }] *)
Definition rsoo_then_unknown : Element :=
  MapElement top
    [ ("relay-supplied-options",
       ListElement (at_ 2 3) [StringElement (at_ 2 4) "12"]);
      ("zzz", NullElement (at_ 3 3)) ].


(** [{ "option-def": ["foo"] }] *)
Definition with_option_def : Element :=
  MapElement top
    [ ("option-def", ListElement (at_ 2 3) [StringElement (at_ 2 4) "foo"]) ].

(** [{ "option-data": [], "option-def": ["foo"] }] *)
Definition data_and_defs : Element :=
  MapElement top
    [ ("option-data", ListElement (at_ 2 3) []);
      ("option-def", ListElement (at_ 3 3) [StringElement (at_ 3 4) "foo"]) ].

(** [{ "not-a-real-section": 1 }] *)
Definition only_unknown : Element :=
  MapElement top [ ("not-a-real-section", IntElement (at_ 2 3) 1) ].

(** [{}] *)
Definition empty_map : Element := MapElement top [].

(** [{ "relay-supplied-options": ["13"] }] *)
Definition rsoo_13 : Element :=
  MapElement top
    [ ("relay-supplied-options",
       ListElement (at_ 2 3) [StringElement (at_ 2 4) "13"]) ].

(** [{ "relay-supplied-options": ["12"] }] *)
Definition rsoo_12 : Element :=
  MapElement top
    [ ("relay-supplied-options",
       ListElement (at_ 2 3) [StringElement (at_ 2 4) "12"]) ].

Definition socket : Element :=
  MapElement (at_ 5 5)
    [ ("socket-name", StringElement (at_ 5 6) "/tmp/kea6.sock") ].

(** No control socket is configured, yet one is open. *)
Definition open_socket_no_descriptor : World types :=
  set_command_mgr (T := types) (Some socket) initial.

(** The same descriptor is staged and current, and its socket is open. *)
Definition same_descriptor : World types :=
  set_cfg_mgr (T := types)
    (mkCfgMgr (setControlSocketInfo (Some socket) empty_config)
       (setControlSocketInfo (Some socket) empty_config) None)
    open_socket_no_descriptor.

(** As [initial], with another counter and definitions left staged. *)
Definition other_counter : World types :=
  set_subnet_static_id (T := types) 7
    (set_runtime_option_defs (T := types)
       (mkStagedValue (Some [StringElement top "left-over"]) []) initial).

End Runs.

(** ** Further notions for the properties of the parsers *)

(** [w'] has the same [f] as [w]. *)
Definition keeps {W X : Type} (f : W -> X) (w w' : W) : Prop := f w' = f w.

Section ParserNotions.

Context {T : Types} (env : Env T).

(** The option code that an entry of the relay-supplied-options list
    stands for, when the entry is a string that is taken. *)
Definition RSOO_entry_code (source_elem : Element) : option Z :=
  match stringValue source_elem with
  | Some option_str =>
      match RSOO_option_code env option_str with
      | Ret code => Some code
      | Throw _ => None
      end
  | None => None
  end.

(** [enable] called for the codes of a list, first to last. *)
Definition enable_all (codes : list Z) (rsoo : CfgRSOO T) : CfgRSOO T :=
  fold_left (fun acc code => CfgRSOO_enable env (to_uint16 code) acc) codes rsoo.

(** [cfg'] is [cfg] but for its relay-supplied options. *)
Definition only_rsoo (cfg cfg' : SrvConfig T) : Prop :=
  cfg' = set_cfg_rsoo (cfg_rsoo cfg') cfg.

(** [cfg'] is [cfg] but for its two global scalars. *)
Definition only_scalars (cfg cfg' : SrvConfig T) : Prop :=
  cfg' = setDhcp4o6Port (dhcp4o6_port cfg') (setDeclinePeriod (decline_period cfg') cfg).

(** [env] with another [openCommandSocket]. *)
Definition with_openCommandSocket
  (open : Element -> M (CommandMgr T) unit) : Env T :=
  mkEnv (position_str env) (TypeError_what env) (getOptionDef env)
    (empty_OptionDefSpaceContainer env) (unregisterTimers env)
    (CfgRSOO_enable env) (setAllDefaults env) (deriveParameters env)
    (getUint32 env) (getUint16 env) (OptionDefListParser_parse env)
    (OptionDataListParser_parse env) (MACSourcesListConfigParser_parse env)
    (ControlSocketParser_parse env) (HostReservationIdsParser6_parse env)
    (DUIDConfigParser_parse env) (IfacesConfigParser_parse env)
    (ExpirationConfigParser_parse env) (HooksLibrariesParser_parse env)
    (verifyLibraries env) (D2ClientConfigParser_setAllDefaults env)
    (D2ClientConfigParser_parse env) (ClientClassDefListParser_parse env)
    (DbAccessParser_parse env) (Subnets6ListConfigParser_parse env)
    (closeCommandSocket env) open (loadLibraries env).

End ParserNotions.

Module MoreRuns.

Import Sample Runs.

(** The sample collaborators with a control socket that cannot be
    opened. *)
Definition env_socket_fails : Env types :=
  with_openCommandSocket env
    (fun _ => throw (IscException "unable to bind to the control socket")).

(** ["12", "subscriber-id"] *)
Definition two_entries : Element :=
  ListElement (at_ 2 3)
    [StringElement (at_ 2 4) "12"; StringElement (at_ 2 9) "subscriber-id"].

(** ["12", "no-such-option", "13"] *)
Definition middle_refused : Element :=
  ListElement (at_ 2 3)
    [StringElement (at_ 2 4) "12"; StringElement (at_ 2 9) "no-such-option";
     StringElement (at_ 2 27) "13"].

(** The staging configuration has a control socket and the D2
    configuration [socket]; nothing is current. *)
Definition staged_socket : World types :=
  set_staging (T := types)
    (setD2ClientConfig (T := types) (Some socket)
       (set_hooks_config (T := types) ["a.so"; ""; "b.so"]
          (setControlSocketInfo (Some socket) empty_config)))
    initial.

(** [{ "decline-probation-period": 10, "dhcp4o6-port": 70000 }] *)
Definition port_out_of_range : Element :=
  MapElement top
    [ ("decline-probation-period", IntElement (at_ 2 3) 10);
      ("dhcp4o6-port", IntElement (at_ 3 3) 70000) ].

(** [{ "decline-probation-period": 10, "dhcp4o6-port": 20 }] *)
Definition scalars_10_20 : Element :=
  MapElement top
    [ ("decline-probation-period", IntElement (at_ 2 3) 10);
      ("dhcp4o6-port", IntElement (at_ 3 3) 20) ].

(** [{ "interfaces": ["eth0"], "re-detect": true }] *)
Definition ifaces : Element :=
  MapElement (at_ 4 3)
    [ ("interfaces", ListElement (at_ 4 4) [StringElement (at_ 4 5) "eth0"]);
      ("re-detect", BoolElement (at_ 4 9) true) ].

End MoreRuns.

(** ** Notions for comparing two runs of the same code *)


Section TwoRuns.

Context {T : Types} (env : Env T).

(** What the parsing block can read: the staging configuration, the
    runtime option definitions and the subnet counter. *)
Record same_parse_state (w w' : World T) : Prop := {
  sp_staging : staging w = staging w';
  sp_defs : runtime_option_defs w = runtime_option_defs w';
  sp_subnet : subnet_static_id w = subnet_static_id w'
}.

(** What the commit block can read: both configurations, the command
    manager and the hooks manager.  The other components are kept equal
    along with them. *)
Record same_commit_state (w w' : World T) : Prop := {
  sc_parse : same_parse_state w w';
  sc_current : current w = current w';
  sc_command : command_mgr w = command_mgr w';
  sc_hooks : hooks_manager w = hooks_manager w'
}.

(** How the loop leaves the element of a pair: as it was, or edited by
    one of the two branches that edit it. *)
Definition left_by_loop (check_only : bool) (pair pair' : string * Element) : Prop :=
  fst pair' = fst pair
  /\ (snd pair' = snd pair
      \/ (fst pair = "interfaces-config" /\ check_only = true
          /\ set (snd pair) "re-detect" (BoolElement ZERO_POSITION false)
             = Some (snd pair'))
      \/ (fst pair = "dhcp-ddns"
          /\ D2ClientConfigParser_setAllDefaults env (snd pair) = Ret (snd pair'))).

End TwoRuns.

(** * Properties *)

Local Open Scope list_scope.

(** ** Relations kept by every step of a computation *)

Section Preservation.

Context {S : Type} (R : S -> S -> Prop).
Hypothesis R_refl : forall s, R s s.
Hypothesis R_trans : forall a b c, R a b -> R b c -> R a c.

Lemma preserves_ret {A : Type} (a : A) : preserves R (ret a).
Proof. intros s. apply R_refl. Qed.

Lemma preserves_throw {A : Type} (e : Exn) : preserves R (@throw S A e).
Proof. intros s. apply R_refl. Qed.

Lemma preserves_lift_res {A : Type} (r : Res A) : preserves R (@lift_res S A r).
Proof. intros s. apply R_refl. Qed.

Lemma preserves_gets {A : Type} (f : S -> A) : preserves R (gets f).
Proof. intros s. apply R_refl. Qed.

Lemma preserves_bind {A B : Type} (m : M S A) (k : A -> M S B) :
  preserves R m -> (forall a, preserves R (k a)) -> preserves R (bind m k).
Proof.
  intros Hm Hk s. unfold bind. specialize (Hm s).
  destruct (m s) as [s' [a | e]]; simpl in *.
  - eapply R_trans; [exact Hm | apply Hk].
  - exact Hm.
Qed.

Lemma preserves_try_catch {A : Type} (m : M S A) (h : Exn -> M S A) :
  preserves R m -> (forall e, preserves R (h e)) -> preserves R (try_catch m h).
Proof.
  intros Hm Hh s. unfold try_catch. specialize (Hm s).
  destruct (m s) as [s' [a | e]]; simpl in *.
  - exact Hm.
  - eapply R_trans; [exact Hm | apply Hh].
Qed.

Lemma preserves_modify (f : S -> S) :
  (forall s, R s (f s)) -> preserves R (modify f).
Proof. intros Hf s. apply Hf. Qed.

End Preservation.

(** ** What the two blocks of [configureDhcp6Server] leave alone *)

Section Frames.

Context {T : Types} (env : Env T).

Lemma parse_frame_refl P (w : World T) : parse_frame P w w.
Proof.
  split; try reflexivity. exists []. split; [now rewrite app_nil_r | constructor].
Qed.

Lemma parse_frame_trans P (a b c : World T) :
  parse_frame P a b -> parse_frame P b c -> parse_frame P a c.
Proof.
  intros [H1 H2 H3 H4 H5 H6 [n1 [E1 F1]]] [K1 K2 K3 K4 K5 K6 [n2 [E2 F2]]].
  split; try congruence.
  exists (n1 ++ n2). split.
  - rewrite E2, E1. now rewrite app_assoc.
  - apply Forall_app. now split.
Qed.

Lemma parse_frame_weaken (P Q : Call -> Prop) (w w' : World T) :
  (forall c, P c -> Q c) -> parse_frame P w w' -> parse_frame Q w w'.
Proof.
  intros HPQ [H1 H2 H3 H4 H5 H6 [n [E F]]]. split; try assumption.
  exists n. split; [exact E | ]. eapply Forall_impl; [exact HPQ | exact F].
Qed.

Lemma set_staging_frame P c (w : World T) : parse_frame P w (set_staging c w).
Proof.
  split; try reflexivity. exists []. split; [now rewrite app_nil_r | constructor].
Qed.

Lemma on_staging_frame P {A : Type} (m : M (SrvConfig T) A) :
  preserves (parse_frame (T := T) P) (on_staging m).
Proof.
  intros w. unfold on_staging, zoom.
  destruct (m (staging w)) as [c r]. simpl. apply set_staging_frame.
Qed.

Lemma on_part_frame P {Q A : Type} (proj : SrvConfig T -> Q)
  (upd : Q -> SrvConfig T -> SrvConfig T) (m : M Q A) :
  preserves (parse_frame (T := T) P) (on_part proj upd m).
Proof. unfold on_part. apply on_staging_frame. Qed.

Lemma record_call_frame (P : Call -> Prop) c :
  P c -> preserves (parse_frame (T := T) P) (modify (record_call c)).
Proof.
  intros Hc w. split; try reflexivity.
  exists [c]. split; [reflexivity | now constructor].
Qed.

Lemma section_parser_frame (P : Call -> Prop) {A : Type} key (m : M (World T) A) :
  P (SectionParser key) ->
  preserves (parse_frame (T := T) P) m ->
  preserves (parse_frame (T := T) P) (section_parser key m).
Proof.
  intros Hk Hm. unfold section_parser.
  apply preserves_bind; [apply parse_frame_trans | now apply record_call_frame | ].
  intros _. exact Hm.
Qed.

Lemma parse_option_defs_frame (P : Call -> Prop) option_defs :
  P (SectionParser "option-def") ->
  preserves (parse_frame (T := T) P) (parse_option_defs env option_defs).
Proof.
  intros HP. unfold parse_option_defs. apply section_parser_frame; [exact HP | ].
  intros w. unfold zoom.
  destruct (OptionDefListParser_parse env option_defs _) as [[d p] r]. simpl.
  split; try reflexivity. exists []. split; [now rewrite app_nil_r | constructor].
Qed.

Lemma parse_subnet6_frame P second :
  preserves (parse_frame (T := T) P) (parse_subnet6 env second).
Proof.
  unfold parse_subnet6.
  apply preserves_bind; [apply parse_frame_trans | apply preserves_gets, parse_frame_refl | ].
  intros defs w. unfold zoom.
  destruct (Subnets6ListConfigParser_parse env defs second _) as [[c n] r]. simpl.
  split; try reflexivity. exists []. split; [now rewrite app_nil_r | constructor].
Qed.

Ltac frame :=
  repeat first
    [ apply preserves_ret; apply parse_frame_refl
    | apply preserves_throw; apply parse_frame_refl
    | apply preserves_lift_res; apply parse_frame_refl
    | apply preserves_gets; apply parse_frame_refl
    | apply on_staging_frame
    | apply on_part_frame
    | apply parse_subnet6_frame
    | apply section_parser_frame; [solve [eauto] | ]
    | apply preserves_bind; [apply parse_frame_trans | | intros ? ] ].

Lemma parse_config_pair_frame check_only config_pair :
  preserves (parse_frame (T := T) later_section) (parse_config_pair env check_only config_pair).
Proof.
  destruct config_pair as [first second]. unfold parse_config_pair.
  destruct (String.eqb_spec first "option-def") as [-> | Hne].
  - frame.
  - assert (Hl : later_section (SectionParser first)) by (exists first; auto).
    repeat match goal with
           | |- preserves _ (if ?b then _ else _) => destruct b
           end; frame.
    + destruct check_only; [destruct (set second _ _) | ]; frame.
Qed.

Lemma foreach_config_pair_frame check_only values_map :
  preserves (parse_frame (T := T) later_section) (foreach_config_pair env check_only values_map).
Proof.
  induction values_map as [| config_pair rest IH]; simpl.
  - frame.
  - apply preserves_bind; [apply parse_frame_trans | apply parse_config_pair_frame | ].
    intros second. apply preserves_bind; [apply parse_frame_trans | exact IH | ].
    intros rest'. frame.
Qed.

Lemma later_section_any c : later_section c -> any_section c.
Proof. intros [k [-> _]]. now exists k. Qed.

Lemma preserves_weaken (P Q : Call -> Prop) {A : Type} (m : M (World T) A) :
  (forall c, P c -> Q c) ->
  preserves (parse_frame (T := T) P) m -> preserves (parse_frame (T := T) Q) m.
Proof. intros HPQ Hm w. eapply parse_frame_weaken; [exact HPQ | apply Hm]. Qed.

Lemma definitions_first_frame cfg :
  preserves (parse_frame (T := T) any_section) (definitions_first env cfg).
Proof.
  unfold definitions_first. destruct (get cfg "option-def").
  - apply parse_option_defs_frame. now exists "option-def".
  - frame.
Qed.

Lemma parse_block_frame check_only mutable_cfg :
  preserves (parse_frame (T := T) any_section) (parse_block env check_only mutable_cfg).
Proof.
  unfold parse_block.
  apply preserves_bind; [apply parse_frame_trans | frame | intros defaulted].
  apply preserves_bind; [apply parse_frame_trans | frame | intros derived].
  apply preserves_bind; [apply parse_frame_trans | | intros values_map].
  { destruct (mapValue derived); frame. }
  apply preserves_bind; [apply parse_frame_trans | apply definitions_first_frame | intros _].
  apply preserves_bind; [apply parse_frame_trans | | intros values_map'].
  { eapply preserves_weaken; [exact later_section_any | apply foreach_config_pair_frame]. }
  frame.
Qed.

End Frames.

Section Commit.

Context {T : Types} (env : Env T).

Lemma commit_frame_refl (w : World T) : commit_frame w w.
Proof. now split. Qed.

Lemma commit_frame_trans (a b c : World T) :
  commit_frame a b -> commit_frame b c -> commit_frame a c.
Proof. intros [] []. split; congruence. Qed.

Lemma command_mgr_frame {A : Type} (m : M (CommandMgr T) A) :
  preserves (commit_frame (T := T)) (zoom command_mgr set_command_mgr m).
Proof. intros w. unfold zoom. destruct (m (command_mgr w)). now split. Qed.

Lemma hooks_manager_frame {A : Type} (m : M (HooksManager T) A) :
  preserves (commit_frame (T := T)) (zoom hooks_manager set_hooks_manager m).
Proof. intros w. unfold zoom. destruct (m (hooks_manager w)). now split. Qed.

Ltac commit_frame_tac :=
  repeat first
    [ apply preserves_ret; apply commit_frame_refl
    | apply preserves_gets; apply commit_frame_refl
    | apply command_mgr_frame
    | apply hooks_manager_frame
    | apply preserves_modify; intros ?; now split
    | apply preserves_bind; [apply commit_frame_trans | | intros ? ] ].

Lemma configureCommandChannel_frame :
  preserves (commit_frame (T := T)) (configureCommandChannel env).
Proof.
  intros w. unfold configureCommandChannel.
  match goal with |- context [if ?b then _ else _] => destruct b end.
  - unfold bind, modify, ret, zoom.
    destruct (control_socket_info (staging w)) as [new_cfg | ]; simpl.
    + destruct (openCommandSocket env new_cfg _) as [cm r]. now split.
    + now split.
  - apply commit_frame_refl.
Qed.

Lemma commit_block_frame : preserves (commit_frame (T := T)) (commit_block env).
Proof.
  unfold commit_block.
  apply preserves_bind;
    [apply commit_frame_trans | apply configureCommandChannel_frame | intros _ ].
  commit_frame_tac.
Qed.

(** What [prepare] sets and what it keeps. *)
Lemma prepare_spec check_only (w : World T) :
  let w' := prepare env check_only w in
  cfg_mgr w' = cfg_mgr w
  /\ command_mgr w' = command_mgr w
  /\ hooks_manager w' = hooks_manager w
  /\ calls w' = calls w
  /\ subnet_static_id w' = 1
  /\ runtime_option_defs w'
     = mkStagedValue (Some (empty_OptionDefSpaceContainer env))
         (committed_ (runtime_option_defs w))
  /\ timer_mgr w'
     = if check_only then timer_mgr w else unregisterTimers env (timer_mgr w).
Proof. destruct check_only; repeat split. Qed.

(** The paths through [configureDhcp6Server], one equation per path. *)
Lemma configure_paths mutable_cfg check_only (w : World T) :
  configureDhcp6Server env (Some mutable_cfg) check_only w =
  match parse_block env check_only mutable_cfg (prepare env check_only w) with
  | (w1, Throw e) =>
      (revertRuntimeOptionDefs w1, Some (createAnswer 1 (parse_error_text e)))
  | (w1, Ret _) =>
      if check_only
      then (revertRuntimeOptionDefs w1, Some (createAnswer 0 sane_text))
      else match commit_block env w1 with
           | (w2, Throw e) =>
               (revertRuntimeOptionDefs w2,
                Some (createAnswer 2 (commit_error_text e)))
           | (w2, Ret _) => (w2, Some (createAnswer 0 "Configuration successful."))
           end
  end.
Proof.
  unfold configureDhcp6Server.
  destruct (parse_block env check_only mutable_cfg (prepare env check_only w))
    as [w1 [[] | [what | what | ]]]; destruct check_only; simpl; try reflexivity.
  destruct (commit_block env w1) as [w2 [[] | [what | what | ]]]; reflexivity.
Qed.

Lemma configureDhcp6Server_configured mutable_cfg check_only (w : World T) :
  configured env mutable_cfg check_only w
    (configureDhcp6Server env (Some mutable_cfg) check_only w)
    (classify env (Some mutable_cfg) check_only w).
Proof.
  rewrite configure_paths. unfold classify.
  pose proof (parse_block_frame env check_only mutable_cfg (prepare env check_only w))
    as Hp.
  destruct (parse_block env check_only mutable_cfg (prepare env check_only w))
    as [w1 [[] | e]] eqn:E1; simpl in Hp.
  - destruct check_only.
    + now apply configured_checked.
    + pose proof (commit_block_frame w1) as Hc.
      destruct (commit_block env w1) as [w2 [[] | e]] eqn:E2; simpl in Hc.
      * now apply configured_committed with (w1 := w1).
      * now apply configured_commit_failure with (w1 := w1).
  - now apply configured_parse_failure.
Qed.

End Commit.

(** ** The outcome of [configureDhcp6Server] *)

Section Outcomes.

Context {T : Types} (env : Env T).

(** Split a call on a tree into its paths, with the frames of the blocks
    it ran. *)
Ltac by_paths mutable_cfg check_only w :=
  let H := fresh "H" in
  pose proof (configureDhcp6Server_configured env mutable_cfg check_only w) as H;
  let Hs := fresh "Hprep" in
  pose proof (prepare_spec env check_only w) as Hs;
  cbv zeta in Hs;
  destruct Hs as (Pcfg & Pcmd & Phooks & Pcalls & Psubnet & Pdefs & Ptimers);
  destruct H as [w1 e E1 F1 | w1 Ec E1 F1 | w1 w2 e Ec E1 F1 E2 F2
                | w1 w2 Ec E1 F1 E2 F2];
  let wp := fresh "wp" in
  set (wp := prepare env check_only w) in *; clearbody wp;
  try destruct F1 as [F1cur F1d2 F1cmd F1hooks F1timers F1committed F1calls];
  try destruct F2 as [F2staging F2cur F2defs F2subnet F2timers];
  unfold current, staging, revertRuntimeOptionDefs in *;
  rewrite Pdefs in *; simpl in *.

Lemma current_of_cfg_mgr (w w' : World T) :
  cfg_mgr w' = cfg_mgr w -> current w' = current w.
Proof. unfold current. now intros ->. Qed.

Lemma staging_of_cfg_mgr (w w' : World T) :
  cfg_mgr w' = cfg_mgr w -> staging w' = staging w.
Proof. unfold staging. now intros ->. Qed.

Lemma staged_value_eq {V : Type} (a b : StagedValue V) :
  staged_ a = staged_ b -> committed_ a = committed_ b -> a = b.
Proof. destruct a, b; simpl; now intros -> ->. Qed.

(** C4.  An absent configuration tree is refused at once: the answer is
    status 1 with the text "Can't parse NULL config", and the world (the
    staging configuration, the subnet counter, the runtime option
    definitions, the timers, the record of calls) is exactly as before. *)
Theorem null_config_refused_untouched (check_only : bool) (w : World T) :
  configureDhcp6Server env None check_only w
  = (w, Some (createAnswer 1 "Can't parse NULL config")).
Proof. reflexivity. Qed.

(** C6.  The answer always exists and its status is 0 for a committed or
    checked-only configuration, 1 for an absent tree or a failure of the
    parsing block, 2 for a failure of the commit block; so status 2 is
    returned exactly for commit failures and status 1 exactly for absent
    input and parse failures. *)
Theorem status_tells_outcome (config_set : option Element) (check_only : bool)
  (w : World T) :
  exists a,
    snd (configureDhcp6Server env config_set check_only w) = Some a
    /\ status a = status_of (classify env config_set check_only w)
    /\ (status a = 2 <->
        exists e, classify env config_set check_only w = CommitFailure e)
    /\ (status a = 1 <->
        classify env config_set check_only w = AbsentInput
        \/ exists e, classify env config_set check_only w = ParseFailure e)
    /\ (status a = 0 <->
        classify env config_set check_only w = CheckedOnly
        \/ classify env config_set check_only w = Committed).
Proof.
  destruct config_set as [mutable_cfg | ].
  - by_paths mutable_cfg check_only w;
      (eexists; split; [reflexivity | ]; simpl;
       repeat split; intros; try lia; try discriminate; eauto;
       repeat match goal with
         | H : _ \/ _ |- _ => destruct H
         | H : exists _, _ |- _ => destruct H
         end; discriminate).
  - simpl. eexists; split; [reflexivity | ]; simpl.
    repeat split; intros; try lia; try discriminate; eauto;
      repeat match goal with
        | H : _ \/ _ |- _ => destruct H
        | H : exists _, _ |- _ => destruct H
        end; discriminate.
Qed.

(** C1, as the code has it.  When a call does not end in a commit (the
    tree is absent, parsing fails, the commit block fails, or the call
    only checks), the current configuration is the one from before the
    call and the committed runtime option definitions are unchanged;
    unless the tree was absent (nothing is touched then) no staged runtime
    definitions remain, so the definitions in force are the committed
    ones.  They are the ones from before the call whenever none was
    staged and uncommitted when the call began. *)
Theorem rollback_restores_committed_option_defs (config_set : option Element)
  (check_only : bool) (w : World T) :
  classify env config_set check_only w <> Committed ->
  let w' := fst (configureDhcp6Server env config_set check_only w) in
  current w' = current w
  /\ committed_ (runtime_option_defs w') = committed_ (runtime_option_defs w)
  /\ ((config_set = None /\ w' = w)
      \/ (staged_ (runtime_option_defs w') = None
          /\ getValue (runtime_option_defs w') = committed_ (runtime_option_defs w)))
  /\ (staged_ (runtime_option_defs w) = None ->
      runtime_option_defs w' = runtime_option_defs w).
Proof.
  intros Hnc. cbv zeta.
  destruct config_set as [mutable_cfg | ].
  - by_paths mutable_cfg check_only w; try (exfalso; now apply Hnc);
      (split; [congruence | ]);
      (split; [congruence | ]);
      (split; [right; split; [reflexivity | unfold getValue; simpl; congruence] | ]);
      intros Hs; apply staged_value_eq; simpl; congruence.
  - simpl. repeat split; auto.
Qed.


(** C2.  With [check_only] set, a call leaves the current configuration,
    the D2 client configuration in force, the command channel, the loaded
    hook libraries and the timers as they were, and the only calls it
    makes are to Section Parsers (no step of the commit block runs); the
    committed runtime option definitions are unchanged and none stays
    staged (the rollback).  Its answer is a
    success exactly when a tree was given and the parsing block
    succeeded, and then the text is the "seems sane" message. *)
Theorem check_only_never_applies (config_set : option Element) (w : World T) :
  let r := configureDhcp6Server env config_set true w in
  (current (fst r) = current w
   /\ d2_client_mgr (cfg_mgr (fst r)) = d2_client_mgr (cfg_mgr w)
   /\ command_mgr (fst r) = command_mgr w
   /\ hooks_manager (fst r) = hooks_manager w
   /\ timer_mgr (fst r) = timer_mgr w
   /\ committed_ (runtime_option_defs (fst r)) = committed_ (runtime_option_defs w)
   /\ (config_set <> None -> staged_ (runtime_option_defs (fst r)) = None)
   /\ exists new, calls (fst r) = calls w ++ new /\ Forall any_section new)
  /\ exists a,
       snd r = Some a
       /\ (status a = 0 <->
           exists mutable_cfg,
             config_set = Some mutable_cfg
             /\ snd (parse_block env true mutable_cfg (prepare env true w)) = Ret tt)
       /\ (status a = 0 -> text a = sane_text).
Proof.
  cbv zeta. destruct config_set as [mutable_cfg | ].
  - by_paths mutable_cfg true w; try discriminate.
    + (* the parsing block threw *)
      split.
      * repeat split; try congruence.
        destruct F1calls as [new [Hn Hf]]. exists new. split; congruence.
      * eexists; split; [reflexivity | ]. simpl. split; [split | ]; try lia.
        intros [t [Ht Hr]]. injection Ht as <-. rewrite E1 in Hr. discriminate.
    + (* checked only *)
      split.
      * repeat split; try congruence.
        destruct F1calls as [new [Hn Hf]]. exists new. split; congruence.
      * eexists; split; [reflexivity | ]. simpl. split; [split | ]; auto.
        intros _. exists mutable_cfg. split; [reflexivity | now rewrite E1].
  - simpl. split.
    + repeat split; try (intros H; now destruct H).
      exists []. split; [now rewrite app_nil_r | constructor].
    + eexists; split; [reflexivity | ]. simpl. split; [split | ]; try lia.
      intros [t [Ht _]]. discriminate.
Qed.

End Outcomes.

(** ** The command channel *)

Section CommandChannel.

Context {T : Types} (env : Env T).

(** C3, as the code has it.  When the staged and the current control
    socket descriptors are both present and structurally equal, the call
    changes nothing and calls neither [closeCommandSocket] nor
    [openCommandSocket].  In every other case, the one with both
    descriptors absent included, [closeCommandSocket] is called, and then
    [openCommandSocket] on the staged descriptor if there is one. *)
Theorem command_channel_reconciled (w : World T) :
  let sock_cfg := control_socket_info (staging w) in
  let current_sock_cfg := control_socket_info (current w) in
  let closed :=
    record_call CloseCommandSocket
      (set_command_mgr (closeCommandSocket env (command_mgr w)) w) in
  (forall new_cfg old_cfg,
      sock_cfg = Some new_cfg -> current_sock_cfg = Some old_cfg ->
      equals new_cfg old_cfg = true ->
      configureCommandChannel env w = (w, Ret tt))
  /\ (forall new_cfg,
         sock_cfg = Some new_cfg ->
         (current_sock_cfg = None
          \/ exists old_cfg, current_sock_cfg = Some old_cfg
                             /\ equals new_cfg old_cfg = false) ->
         configureCommandChannel env w
         = zoom command_mgr set_command_mgr (openCommandSocket env new_cfg)
             (record_call (OpenCommandSocket new_cfg) closed))
  /\ (sock_cfg = None -> configureCommandChannel env w = (closed, Ret tt)).
Proof.
  cbv zeta. unfold configureCommandChannel.
  split; [ | split].
  - intros new_cfg old_cfg -> -> Heq. rewrite Heq. reflexivity.
  - intros new_cfg -> [-> | [old_cfg [-> Hne]]].
    + reflexivity.
    + rewrite Hne. reflexivity.
  - intros ->. reflexivity.
Qed.

End CommandChannel.

(** ** The parsing block: unknown keys and the order of the parsers *)

Section Dispatch.

Context {T : Types} (env : Env T).


Lemma foreach_config_pair_cons check_only config_pair rest (w : World T) :
  foreach_config_pair env check_only (config_pair :: rest) w
  = match parse_config_pair env check_only config_pair w with
    | (w0, Throw e) => (w0, Throw e)
    | (w0, Ret second) =>
        match foreach_config_pair env check_only rest w0 with
        | (w1, Throw e) => (w1, Throw e)
        | (w1, Ret rest') => (w1, Ret ((fst config_pair, second) :: rest'))
        end
    end.
Proof.
  cbn [foreach_config_pair]. unfold bind.
  destruct (parse_config_pair env check_only config_pair w) as [w0 [s | e]];
    [ | reflexivity].
  destruct (foreach_config_pair env check_only rest w0) as [w1 [r | e]];
    reflexivity.
Qed.



(** The option-definition parser makes one recorded call. *)
Lemma parse_option_defs_calls option_defs (w : World T) :
  calls (fst (parse_option_defs env option_defs w))
  = calls w ++ [SectionParser "option-def"].
Proof.
  unfold parse_option_defs, section_parser, bind, modify, zoom. simpl.
  destruct (OptionDefListParser_parse env option_defs _) as [[d p] r].
  reflexivity.
Qed.

End Dispatch.

(** ** The relay-supplied-options list *)

Section RelaySuppliedOptions.

Context {T : Types} (env : Env T).

Lemma RSOO_option_code_throws option_str e :
  RSOO_option_code env option_str = Throw e -> exists what, e = IscException what.
Proof.
  unfold RSOO_option_code.
  destruct (lexical_cast_int64 option_str) as [code | ].
  - destruct (code <? 0); [intros [= <-]; eauto | ].
    destruct (code >? UINT16_MAX); [intros [= <-]; eauto | ].
    destruct (code =? 0); [ | discriminate].
    destruct (getOptionDef env DHCP6_OPTION_SPACE option_str);
      [discriminate | intros [= <-]; eauto].
  - simpl.
    destruct (getOptionDef env DHCP6_OPTION_SPACE option_str);
      [discriminate | intros [= <-]; eauto].
Qed.

Lemma RSOO_source_elem_throws source_elem cfg cfg' e :
  RSOO_source_elem env source_elem cfg = (cfg', Throw e) ->
  exists what, e = IscException what.
Proof.
  unfold RSOO_source_elem.
  destruct (stringValue source_elem) as [option_str | ].
  - unfold bind, lift_res, modify.
    destruct (RSOO_option_code env option_str) as [code | e0] eqn:E.
    + discriminate.
    + intros [= _ <-]. eapply RSOO_option_code_throws. exact E.
  - unfold throw. intros [= _ <-]. eauto.
Qed.

(** One refused entry anywhere in the list makes the loop throw. *)
Lemma RSOO_foreach_refuses sources q option_str e :
  In (StringElement q option_str) sources ->
  RSOO_option_code env option_str = Throw e ->
  forall cfg, exists cfg' what,
    RSOO_foreach env sources cfg = (cfg', Throw (IscException what)).
Proof.
  intros Hin Hcode.
  induction sources as [| source_elem rest IH]; [contradiction | ].
  intros cfg. cbn [RSOO_foreach]. unfold bind at 1.
  destruct (RSOO_source_elem env source_elem cfg) as [cfg0 [[] | e0]] eqn:E0.
  - destruct Hin as [-> | Hin].
    + unfold RSOO_source_elem in E0. simpl in E0.
      unfold bind, lift_res in E0. rewrite Hcode in E0. discriminate.
    + apply (IH Hin).
  - destruct (RSOO_source_elem_throws _ _ _ _ E0) as [what ->]. eauto.
Qed.

(** C10.  An entry that reads as the integer [code] is taken as the
    option code exactly when [1 <= code <= 65535] (and is then passed to
    [enable] unchanged); it is refused with an error when [code] is
    negative or above 65535; when [code] is 0 it is looked up as an
    option name, taken with the code of the definition found and refused
    when none is found.  The entry "0" reads as 0, so it is never taken
    as a code by itself.  A refused entry makes the whole parser throw a
    configuration error. *)
Theorem rsoo_numeric_entry_range (option_str : string) (code : Z) :
  lexical_cast_int64 option_str = Some code ->
  (code < 0 \/ code > 65535 ->
   exists what, RSOO_option_code env option_str = Throw (IscException what))
  /\ (1 <= code <= 65535 ->
      RSOO_option_code env option_str = Ret code /\ to_uint16 code = code)
  /\ (code = 0 ->
      (forall def_code,
          getOptionDef env DHCP6_OPTION_SPACE option_str = Some def_code ->
          RSOO_option_code env option_str = Ret def_code)
      /\ (getOptionDef env DHCP6_OPTION_SPACE option_str = None ->
          exists what,
            RSOO_option_code env option_str = Throw (IscException what)))
  /\ (lexical_cast_int64 "0" = Some 0
      /\ (getOptionDef env DHCP6_OPTION_SPACE "0" = None ->
          exists what, RSOO_option_code env "0" = Throw (IscException what)))
  /\ (code < 0 \/ code > 65535
      \/ (code = 0 /\ getOptionDef env DHCP6_OPTION_SPACE option_str = None) ->
      forall p q sources cfg,
        In (StringElement q option_str) sources ->
        exists cfg' what,
          RSOOListConfigParser_parse env (ListElement p sources) cfg
          = (cfg', Throw (IscException what))).
Proof.
  intros Hcast.
  assert (Hneg : code < 0 ->
            exists what, RSOO_option_code env option_str = Throw (IscException what)).
  { intros H. unfold RSOO_option_code. rewrite Hcast.
    destruct (Z.ltb_spec code 0); [eauto | lia]. }
  assert (Hbig : code > 65535 ->
            exists what, RSOO_option_code env option_str = Throw (IscException what)).
  { intros H. unfold RSOO_option_code, UINT16_MAX. rewrite Hcast.
    destruct (Z.ltb_spec code 0); [lia | ].
    rewrite Z.gtb_ltb. destruct (Z.ltb_spec 65535 code); [eauto | lia]. }
  assert (Hzero : code = 0 ->
            RSOO_option_code env option_str
            = match getOptionDef env DHCP6_OPTION_SPACE option_str with
              | Some def_code => Ret def_code
              | None =>
                  Throw (IscException
                    (("unable to find option code for the  specified option name '"
                      ++ option_str ++ "' while parsing the list of enabled"
                      ++ " relay-supplied-options")%string))
              end).
  { intros ->. unfold RSOO_option_code. rewrite Hcast. reflexivity. }
  split; [intros [H | H]; auto | ].
  split.
  { intros H. split.
    - unfold RSOO_option_code, UINT16_MAX. rewrite Hcast.
      destruct (Z.ltb_spec code 0); [lia | ].
      rewrite Z.gtb_ltb. destruct (Z.ltb_spec 65535 code); [lia | ].
      destruct (Z.eqb_spec code 0); [lia | reflexivity].
    - unfold to_uint16. apply Z.mod_small. lia. }
  split.
  { intros H. rewrite (Hzero H). split.
    - intros def_code ->. reflexivity.
    - intros ->. eauto. }
  split.
  { split; [reflexivity | ].
    intros H. unfold RSOO_option_code. simpl. rewrite H. eauto. }
  intros Hbad p q sources cfg Hin.
  assert (Hthrow : exists what,
             RSOO_option_code env option_str = Throw (IscException what)).
  { destruct Hbad as [H | [H | [H Hnone]]]; auto.
    rewrite (Hzero H), Hnone. eauto. }
  destruct Hthrow as [what Hthrow].
  destruct (RSOO_foreach_refuses sources q option_str _ Hin Hthrow cfg)
    as (cfg' & what' & E).
  unfold RSOOListConfigParser_parse, try_catch. cbn [listValue]. rewrite E.
  unfold throw. eauto.
Qed.

End RelaySuppliedOptions.

(** ** The staging configuration across calls *)

Section StagingAcrossCalls.

Context {T : Types} (env : Env T).

Lemma staging_after_call mutable_cfg check_only (w : World T) :
  staging (fst (configureDhcp6Server env (Some mutable_cfg) check_only w))
  = staging (fst (parse_block env check_only mutable_cfg (prepare env check_only w))).
Proof.
  rewrite configure_paths.
  destruct (parse_block env check_only mutable_cfg (prepare env check_only w))
    as [w1 [[] | e]]; [ | reflexivity].
  destruct check_only; [reflexivity | ].
  pose proof (commit_block_frame env w1) as [Hs _ _ _ _].
  destruct (commit_block env w1) as [w2 [[] | e]]; exact Hs.
Qed.

(** C7, as the code has it.  A call does not make a staging
    configuration: its parsers write into the one that the configuration
    manager holds.  For two calls in a row, the second one starts from
    the staging configuration that the first one left, what a failed
    first attempt wrote included: preparing the second call keeps it, the
    staging configuration after the second call is what the parsing block
    made of it, and it is still the one left by the first call when the
    second call fails before any parser has run. *)
Theorem staging_carried_to_next_call (first_cfg second_cfg : Element)
  (check_first check_second : bool) (w : World T) :
  let w1 := fst (configureDhcp6Server env (Some first_cfg) check_first w) in
  let w2 := fst (configureDhcp6Server env (Some second_cfg) check_second w1) in
  staging (prepare env check_second w1) = staging w1
  /\ staging w2
     = staging (fst (parse_block env check_second second_cfg
                       (prepare env check_second w1)))
  /\ (forall e, setAllDefaults env second_cfg = Throw e -> staging w2 = staging w1).
Proof.
  cbv zeta.
  set (w1 := fst (configureDhcp6Server env (Some first_cfg) check_first w)).
  split; [destruct check_second; reflexivity | ].
  split; [apply staging_after_call | ].
  intros e He. rewrite staging_after_call.
  unfold parse_block, bind, lift_res. rewrite He.
  destruct check_second; reflexivity.
Qed.

End StagingAcrossCalls.

(** ** The properties on concrete runs *)

Section ConcreteRuns.

Import Sample Runs.

(** A parse failure on the never-configured server: the runtime option
    definitions and the current configuration are as before. *)
Lemma rollback_restores_committed_option_defs_run :
  classify env (Some rsoo_then_unknown) false initial <> Committed
  /\ (let w' := fst (configureDhcp6Server env (Some rsoo_then_unknown) false initial) in
      current w' = current initial
      /\ committed_ (runtime_option_defs w') = committed_ (runtime_option_defs initial)
      /\ ((Some rsoo_then_unknown = None /\ w' = initial)
          \/ (staged_ (runtime_option_defs w') = None
              /\ getValue (runtime_option_defs w')
                 = committed_ (runtime_option_defs initial)))
      /\ (staged_ (runtime_option_defs initial) = None ->
          runtime_option_defs w' = runtime_option_defs initial)).
Proof.
  assert (H : classify env (Some rsoo_then_unknown) false initial <> Committed)
    by (vm_compute; discriminate).
  split; [exact H | ].
  exact (rollback_restores_committed_option_defs env (Some rsoo_then_unknown)
           false initial H).
Defined.

(** C1 as stated fails.  A first call stages the option definition "foo"
    and succeeds; nobody commits.  A second call fails in the parsing
    block (status 1).  The runtime option definitions in force before the
    second call were the staged ones, after it they are the committed
    ones: the pre-call state is not restored. *)
Lemma C1_staged_definitions_not_restored :
  let first := configureDhcp6Server env (Some with_option_def) false initial in
  let w1 := fst first in
  let second := configureDhcp6Server env (Some only_unknown) false w1 in
  snd first = Some (createAnswer 0 "Configuration successful.")
  /\ (exists e, classify env (Some only_unknown) false w1 = ParseFailure e)
  /\ (exists a, snd second = Some a /\ status a = 1)
  /\ getValue (runtime_option_defs w1) = [StringElement (at_ 2 4) "foo"]
  /\ getValue (runtime_option_defs (fst second)) = []
  /\ runtime_option_defs (fst second) <> runtime_option_defs w1.
Proof.
  vm_compute.
  repeat split; try (eexists; split; reflexivity); try (eexists; reflexivity).
  discriminate.
Qed.

(** C3 as stated fails.  Neither the staging nor the current
    configuration has a control socket descriptor, and a socket is open:
    the call closes it. *)
Lemma C3_both_absent_socket_closed :
  control_socket_info (staging open_socket_no_descriptor) = None
  /\ control_socket_info (current open_socket_no_descriptor) = None
  /\ command_mgr open_socket_no_descriptor = Some socket
  /\ command_mgr (fst (configureCommandChannel env open_socket_no_descriptor)) = None
  /\ calls (fst (configureCommandChannel env open_socket_no_descriptor))
     = [CloseCommandSocket]
  /\ fst (configureCommandChannel env open_socket_no_descriptor)
     <> open_socket_no_descriptor.
Proof. vm_compute. repeat split. discriminate. Qed.

(** With the same descriptor staged and current, the open socket stays. *)
Example same_descriptor_untouched :
  configureCommandChannel env same_descriptor = (same_descriptor, Ret tt).
Proof. reflexivity. Qed.


Example unknown_key_named :
  snd (configureDhcp6Server env (Some only_unknown) false initial)
  = Some (createAnswer 1
      "unsupported global configuration parameter: not-a-real-section (kea.conf:2:3)").
Proof. reflexivity. Qed.


Example option_def_before_option_data :
  calls (fst (configureDhcp6Server env (Some data_and_defs) true initial))
  = [SectionParser "option-def"; SectionParser "option-data"].
Proof. reflexivity. Qed.

(** C7 as stated fails.  The first attempt enables option 12 in the
    staging configuration and then fails on the unknown key.  The second
    attempt, on the empty map, succeeds; option 12 is in the staging
    configuration it has assembled, although its tree does not mention
    it and a server that never saw the first attempt has no such
    option. *)
Lemma C7_failed_attempt_visible_in_next :
  let first := configureDhcp6Server env (Some rsoo_then_unknown) false initial in
  let second := configureDhcp6Server env (Some empty_map) false (fst first) in
  (exists a, snd first = Some a /\ status a = 1)
  /\ cfg_rsoo (staging (fst first)) = [12]
  /\ snd second = Some (createAnswer 0 "Configuration successful.")
  /\ cfg_rsoo (staging (fst second)) = [12]
  /\ cfg_rsoo (staging (fst (configureDhcp6Server env (Some empty_map) false initial)))
     = [].
Proof.
  vm_compute. repeat split. eexists. split; reflexivity.
Qed.

(** Two failing attempts in a row: the second leaves the staging
    configuration of the first. *)
Lemma staging_carried_to_next_call_run :
  setAllDefaults env (NullElement top)
  = Throw (IscException "the configuration is not a map")
  /\ (let w1 := fst (configureDhcp6Server env (Some rsoo_then_unknown) false initial) in
      let w2 := fst (configureDhcp6Server env (Some (NullElement top)) false w1) in
      staging w2 = staging w1).
Proof.
  split; [reflexivity | ].
  exact (proj2 (proj2 (staging_carried_to_next_call env rsoo_then_unknown
                         (NullElement top) false false initial))
           _ eq_refl).
Defined.


(** Entries of the relay-supplied-options list. *)
Lemma rsoo_numeric_entry_range_run :
  lexical_cast_int64 "70000" = Some 70000
  /\ (exists what, RSOO_option_code env "70000" = Throw (IscException what))
  /\ (exists what, RSOO_option_code env "0" = Throw (IscException what))
  /\ exists cfg' what,
       RSOOListConfigParser_parse env
         (ListElement top [StringElement top "12"; StringElement top "70000"])
         empty_config
       = (cfg', Throw (IscException what)).
Proof.
  pose proof (rsoo_numeric_entry_range env "70000" 70000 eq_refl)
    as (Hout & _ & _ & [_ Hzero] & Hparse).
  split; [reflexivity | ].
  split; [apply Hout; right; lia | ].
  split; [apply Hzero; reflexivity | ].
  assert (Hc : 70000 < 0 \/ 70000 > 65535
               \/ (70000 = 0 /\ getOptionDef env DHCP6_OPTION_SPACE "70000" = None))
    by (right; left; lia).
  apply (Hparse Hc top top). right. left. reflexivity.
Defined.

Example rsoo_accepts_code_and_name :
  fst (RSOOListConfigParser_parse env
         (ListElement top [StringElement top "65535"; StringElement top "subscriber-id"])
         empty_config)
  = set_cfg_rsoo (T := types) [38; 65535] empty_config.
Proof. reflexivity. Qed.

(** A hook library that does not load: status 2, and the socket opened by
    the first commit step stays open. *)
Example commit_failure_status_2 :
  let r := configureDhcp6Server env
             (Some (MapElement top
                      [ ("control-socket", socket);
                        ("hooks-libraries",
                         ListElement top [StringElement top "a.so"; StringElement top ""]) ]))
             false initial in
  snd r = Some (createAnswer 2 "hooks libraries failed to load")
  /\ command_mgr (fst r) = Some socket
  /\ current (fst r) = current initial.
Proof. vm_compute. repeat split. Qed.

End ConcreteRuns.

(** ** More on the relay-supplied-options parser *)

Section RelaySuppliedOptionsList.

Context {T : Types} (env : Env T).

Lemma RSOO_source_elem_taken source_elem code cfg :
  RSOO_entry_code env source_elem = Some code ->
  RSOO_source_elem env source_elem cfg
  = (set_cfg_rsoo (CfgRSOO_enable env (to_uint16 code) (cfg_rsoo cfg)) cfg, Ret tt).
Proof.
  unfold RSOO_entry_code, RSOO_source_elem.
  destruct (stringValue source_elem) as [option_str | ]; [ | discriminate].
  unfold bind, lift_res, modify.
  destruct (RSOO_option_code env option_str) as [c | e]; [ | discriminate].
  now intros [= ->].
Qed.

Lemma RSOO_source_elem_refused source_elem cfg :
  RSOO_entry_code env source_elem = None ->
  exists what,
    RSOO_source_elem env source_elem cfg = (cfg, Throw (IscException what)).
Proof.
  unfold RSOO_entry_code, RSOO_source_elem.
  destruct (stringValue source_elem) as [option_str | ].
  - unfold bind, lift_res.
    destruct (RSOO_option_code env option_str) as [c | e] eqn:E; [discriminate | ].
    intros _. destruct (RSOO_option_code_throws env _ _ E) as [what ->]. eauto.
  - intros _. unfold throw. eauto.
Qed.

Lemma set_cfg_rsoo_same (cfg : SrvConfig T) : set_cfg_rsoo (cfg_rsoo cfg) cfg = cfg.
Proof. now destruct cfg. Qed.

(** The loop over entries that are all taken. *)
Lemma RSOO_foreach_taken pre codes rest cfg :
  Forall2 (fun source_elem code => RSOO_entry_code env source_elem = Some code)
    pre codes ->
  RSOO_foreach env (pre ++ rest) cfg
  = RSOO_foreach env rest (set_cfg_rsoo (enable_all env codes (cfg_rsoo cfg)) cfg).
Proof.
  intros H. revert cfg. induction H as [| source_elem code pre codes Hc _ IH];
    intros cfg.
  - simpl. now rewrite set_cfg_rsoo_same.
  - cbn [app RSOO_foreach]. unfold bind at 1.
    rewrite (RSOO_source_elem_taken _ _ _ Hc). rewrite IH. reflexivity.
Qed.

Lemma RSOO_foreach_throws sources cfg cfg' e :
  RSOO_foreach env sources cfg = (cfg', Throw e) ->
  exists what, e = IscException what.
Proof.
  revert cfg. induction sources as [| source_elem rest IH]; intros cfg.
  - discriminate.
  - cbn [RSOO_foreach]. unfold bind at 1.
    destruct (RSOO_source_elem env source_elem cfg) as [cfg0 [[] | e0]] eqn:E0.
    + apply IH.
    + intros [= _ <-]. eapply RSOO_source_elem_throws. exact E0.
Qed.

Lemma only_rsoo_refl (cfg : SrvConfig T) : only_rsoo cfg cfg.
Proof. unfold only_rsoo. now rewrite set_cfg_rsoo_same. Qed.

Lemma only_rsoo_trans (a b c : SrvConfig T) :
  only_rsoo a b -> only_rsoo b c -> only_rsoo a c.
Proof. unfold only_rsoo. intros Hab Hbc. rewrite Hbc, Hab. reflexivity. Qed.

Lemma RSOO_source_elem_only_rsoo source_elem :
  preserves (only_rsoo (T := T)) (RSOO_source_elem env source_elem).
Proof.
  intros cfg. unfold RSOO_source_elem.
  destruct (stringValue source_elem) as [option_str | ];
    [ | apply only_rsoo_refl].
  unfold bind, lift_res, modify.
  destruct (RSOO_option_code env option_str) as [c | e]; simpl;
    [reflexivity | apply only_rsoo_refl].
Qed.

Lemma RSOO_foreach_only_rsoo sources :
  preserves (only_rsoo (T := T)) (RSOO_foreach env sources).
Proof.
  induction sources as [| source_elem rest IH]; cbn [RSOO_foreach].
  - apply preserves_ret, only_rsoo_refl.
  - apply preserves_bind;
      [apply only_rsoo_trans | apply RSOO_source_elem_only_rsoo | intros _; exact IH].
Qed.

(** X1.  Whatever makes the relay-supplied-options parser fail (a value
    that is not a list, an entry that is not a string, a code out of
    range, an unknown name), the exception that leaves it is a
    configuration error whose text ends with the position of the list in
    parentheses. *)
Theorem rsoo_error_ends_with_position (value : Element) (cfg cfg' : SrvConfig T)
  (e : Exn) :
  RSOOListConfigParser_parse env value cfg = (cfg', Throw e) ->
  exists what,
    e = IscException
          (what ++ " (" ++ position_str env (getPosition value) ++ ")")%string.
Proof.
  unfold RSOOListConfigParser_parse, try_catch.
  destruct (listValue value) as [sources | ].
  - destruct (RSOO_foreach env sources cfg) as [cfg0 [[] | e0]] eqn:E0;
      [discriminate | ].
    destruct (RSOO_foreach_throws _ _ _ _ E0) as [what ->].
    unfold throw. intros [= _ <-]. eauto.
  - unfold throw. intros [= _ <-]. eauto.
Qed.

(** X2.  The relay-supplied-options parser changes nothing of the
    configuration it is given but the set of enabled options, whether it
    returns or throws. *)
Theorem rsoo_changes_only_enabled_options (value : Element) (cfg : SrvConfig T) :
  let cfg' := fst (RSOOListConfigParser_parse env value cfg) in
  cfg' = set_cfg_rsoo (cfg_rsoo cfg') cfg.
Proof.
  cbv zeta.
  assert (H : preserves (only_rsoo (T := T)) (RSOOListConfigParser_parse env value)).
  { unfold RSOOListConfigParser_parse.
    apply preserves_try_catch; [apply only_rsoo_trans | | ].
    - destruct (listValue value);
        [apply RSOO_foreach_only_rsoo | apply preserves_throw, only_rsoo_refl].
    - intros [what | what | ]; apply preserves_throw, only_rsoo_refl. }
  exact (H cfg).
Qed.

(** X3.  When the value is a list whose entries are all taken (each a
    string that is a code in range or a known name), the parser returns
    and has called [enable] once for each entry, with its code, from the
    first entry to the last. *)
Theorem rsoo_enables_every_entry (value : Element) (sources : list Element)
  (codes : list Z) (cfg : SrvConfig T) :
  listValue value = Some sources ->
  Forall2 (fun source_elem code => RSOO_entry_code env source_elem = Some code)
    sources codes ->
  RSOOListConfigParser_parse env value cfg
  = (set_cfg_rsoo (enable_all env codes (cfg_rsoo cfg)) cfg, Ret tt).
Proof.
  intros Hl Hc. unfold RSOOListConfigParser_parse, try_catch. rewrite Hl.
  pose proof (RSOO_foreach_taken sources codes [] cfg Hc) as H.
  rewrite app_nil_r in H. rewrite H. reflexivity.
Qed.

(** X4.  The parser stops at the first entry that is not taken: the
    entries before it have been enabled and stay enabled in the
    configuration, the entries after it are not looked at, and the error
    carries the position of the list. *)
Theorem rsoo_stops_at_first_refused (p : Position) (pre post : list Element)
  (refused : Element) (codes : list Z) (cfg : SrvConfig T) :
  Forall2 (fun source_elem code => RSOO_entry_code env source_elem = Some code)
    pre codes ->
  RSOO_entry_code env refused = None ->
  exists what,
    RSOOListConfigParser_parse env (ListElement p (pre ++ refused :: post)) cfg
    = (set_cfg_rsoo (enable_all env codes (cfg_rsoo cfg)) cfg,
       Throw (IscException (what ++ " (" ++ position_str env p ++ ")")%string)).
Proof.
  intros Hpre Hbad. unfold RSOOListConfigParser_parse, try_catch. cbn [listValue].
  rewrite (RSOO_foreach_taken pre codes (refused :: post) cfg Hpre).
  cbn [RSOO_foreach]. unfold bind at 1.
  destruct (RSOO_source_elem_refused refused
              (set_cfg_rsoo (enable_all env codes (cfg_rsoo cfg)) cfg) Hbad)
    as [what ->].
  exists what. reflexivity.
Qed.

(** X5.  A code that an entry is taken with is either the number the
    entry reads as, which then lies in 1..65535, or the code of the
    definition found under the entry as a name in the "dhcp6" option
    space, which is consulted only when the entry does not read as a
    number or reads as 0. *)
Theorem rsoo_code_origin (option_str : string) (code : Z) :
  RSOO_option_code env option_str = Ret code ->
  (lexical_cast_int64 option_str = Some code /\ 1 <= code <= 65535)
  \/ (getOptionDef env "dhcp6" option_str = Some code
      /\ (lexical_cast_int64 option_str = None
          \/ lexical_cast_int64 option_str = Some 0)).
Proof.
  unfold RSOO_option_code, UINT16_MAX, DHCP6_OPTION_SPACE.
  destruct (lexical_cast_int64 option_str) as [n | ].
  - destruct (Z.ltb_spec n 0); [discriminate | ].
    rewrite Z.gtb_ltb. destruct (Z.ltb_spec 65535 n); [discriminate | ].
    destruct (Z.eqb_spec n 0) as [-> | Hn].
    + destruct (getOptionDef env "dhcp6" option_str) as [c | ];
        [ | discriminate].
      intros [= ->]. right. auto.
    + intros [= ->]. left. split; [reflexivity | lia].
  - simpl. destruct (getOptionDef env "dhcp6" option_str) as [c | ];
      [ | discriminate].
    intros [= ->]. right. auto.
Qed.

End RelaySuppliedOptionsList.

(** ** The global scalars *)

Section GlobalScalars.

Context {T : Types} (env : Env T).

(** X6.  The parser of the global scalars changes nothing but the decline
    probation period and the DHCPv4-over-DHCPv6 port.  It reads and
    stores the period first: when the period is refused nothing is
    written and the port is not read; when the port is refused the
    period has already been stored; when both are accepted both are
    stored. *)
Theorem global_scalars_stored_in_order (global : Element) (cfg : SrvConfig T) :
  let r := Dhcp6ConfigParser_parse env global cfg in
  only_scalars cfg (fst r)
  /\ (forall e,
         getUint32 env global "decline-probation-period" = Throw e ->
         r = (cfg, Throw e))
  /\ (forall period e,
         getUint32 env global "decline-probation-period" = Ret period ->
         getUint16 env global "dhcp4o6-port" = Throw e ->
         r = (setDeclinePeriod period cfg, Throw e))
  /\ (forall period port,
         getUint32 env global "decline-probation-period" = Ret period ->
         getUint16 env global "dhcp4o6-port" = Ret port ->
         r = (setDhcp4o6Port port (setDeclinePeriod period cfg), Ret tt)).
Proof.
  cbv zeta. unfold Dhcp6ConfigParser_parse, bind, lift_res, modify, only_scalars.
  destruct (getUint32 env global "decline-probation-period") as [period | e1];
    [destruct (getUint16 env global "dhcp4o6-port") as [port | e2] | ];
    simpl; (split; [now destruct cfg | ]);
    repeat split; intros; congruence.
Qed.

End GlobalScalars.

(** ** More on the command channel and the commit block *)

Section CommitSteps.

Context {T : Types} (env : Env T).

(** X7.  The reconciliation of the command channel touches the command
    manager alone: the configurations, the hooks, the timers, the
    runtime option definitions and the subnet counter are as before.
    The calls it makes are none, a close, or a close followed by an open
    of the staged descriptor: no socket is opened without a close just
    before, and none for a descriptor other than the staged one. *)
Theorem command_channel_touches_channel_only (w : World T) :
  let w' := fst (configureCommandChannel env w) in
  cfg_mgr w' = cfg_mgr w
  /\ hooks_manager w' = hooks_manager w
  /\ timer_mgr w' = timer_mgr w
  /\ runtime_option_defs w' = runtime_option_defs w
  /\ subnet_static_id w' = subnet_static_id w
  /\ ((calls w' = calls w /\ command_mgr w' = command_mgr w)
      \/ (control_socket_info (staging w) = None
          /\ calls w' = calls w ++ [CloseCommandSocket]
          /\ command_mgr w' = closeCommandSocket env (command_mgr w))
      \/ (exists sock_cfg,
             control_socket_info (staging w) = Some sock_cfg
             /\ calls w' = calls w ++ [CloseCommandSocket; OpenCommandSocket sock_cfg]
             /\ command_mgr w'
                = fst (openCommandSocket env sock_cfg
                         (closeCommandSocket env (command_mgr w))))).
Proof.
  cbv zeta. unfold configureCommandChannel.
  match goal with |- context [if ?b then _ else _] => destruct b end.
  - unfold bind, modify, ret, zoom.
    destruct (control_socket_info (staging w)) as [sock_cfg | ]; simpl.
    + destruct (openCommandSocket env sock_cfg
                  (closeCommandSocket env (command_mgr w))) as [cm r] eqn:E.
      simpl. repeat split. right. right. exists sock_cfg.
      repeat split; [now rewrite <- app_assoc | now rewrite E].
    + repeat split. right. left. repeat split.
  - simpl. repeat split. left. split; reflexivity.
Qed.

Lemma commit_block_after_channel (w : World T) :
  commit_block env w
  = match configureCommandChannel env w with
    | (w1, Throw e) => (w1, Throw e)
    | (w1, Ret _) =>
        let w2 :=
          record_call LoadLibraries
            (record_call SetD2ClientConfig
               (set_cfg_mgr
                  (mkCfgMgr (getStagingCfg (cfg_mgr w1)) (getCurrentCfg (cfg_mgr w1))
                     (d2_client_config (staging w1)))
                  w1)) in
        zoom hooks_manager set_hooks_manager
          (loadLibraries env (hooks_config (staging w1))) w2
    end.
Proof.
  unfold commit_block, bind at 1.
  destruct (configureCommandChannel env w) as [w1 [[] | e]]; reflexivity.
Qed.

(** X8.  When the reconciliation of the command channel throws, it is
    the opening of the staged descriptor that failed: the socket that was
    open has been closed already and stays closed.  The commit block
    stops there with the same exception: the D2 client configuration in
    force and the loaded hook libraries are as before, and no further
    step is called. *)
Theorem commit_stops_when_channel_fails (w : World T) (e : Exn) :
  snd (configureCommandChannel env w) = Throw e ->
  let w' := fst (commit_block env w) in
  snd (commit_block env w) = Throw e
  /\ d2_client_mgr (cfg_mgr w') = d2_client_mgr (cfg_mgr w)
  /\ hooks_manager w' = hooks_manager w
  /\ exists sock_cfg,
       control_socket_info (staging w) = Some sock_cfg
       /\ calls w' = calls w ++ [CloseCommandSocket; OpenCommandSocket sock_cfg]
       /\ openCommandSocket env sock_cfg (closeCommandSocket env (command_mgr w))
          = (command_mgr w', Throw e).
Proof.
  intros He. cbv zeta. rewrite commit_block_after_channel.
  revert He. unfold configureCommandChannel.
  match goal with |- context [if ?b then _ else _] => destruct b end;
    [ | discriminate].
  unfold bind, modify, ret, zoom.
  destruct (control_socket_info (staging w)) as [sock_cfg | ]; simpl;
    [ | discriminate].
  destruct (openCommandSocket env sock_cfg (closeCommandSocket env (command_mgr w)))
    as [cm [[] | e0]] eqn:E; simpl; [discriminate | ].
  intros [= ->]. repeat split. exists sock_cfg.
  repeat split; [now rewrite <- app_assoc | exact E].
Qed.

(** X9.  When the command channel is reconciled without error, the D2
    client configuration of the staging configuration is put in force
    and then the staged hook libraries are loaded, in this order and as
    the last two steps.  A failure to load them is the outcome of the
    block, and it undoes nothing: the D2 configuration stays replaced and
    the command channel stays as reconciled. *)
Theorem d2_applied_before_hooks_load (w : World T) :
  snd (configureCommandChannel env w) = Ret tt ->
  let w1 := fst (configureCommandChannel env w) in
  let loaded :=
    loadLibraries env (hooks_config (staging w)) (hooks_manager w) in
  let w' := fst (commit_block env w) in
  snd (commit_block env w) = snd loaded
  /\ hooks_manager w' = fst loaded
  /\ d2_client_mgr (cfg_mgr w') = d2_client_config (staging w)
  /\ command_mgr w' = command_mgr w1
  /\ calls w' = calls w1 ++ [SetD2ClientConfig; LoadLibraries].
Proof.
  intros Hr. cbv zeta. rewrite commit_block_after_channel.
  pose proof (configureCommandChannel_frame env w) as [Hs _ _ _ _].
  assert (Hh : hooks_manager (fst (configureCommandChannel env w)) = hooks_manager w).
  { unfold configureCommandChannel.
    match goal with |- context [if ?b then _ else _] => destruct b end;
      [ | reflexivity].
    unfold bind, modify, ret, zoom.
    destruct (control_socket_info (staging w)) as [sock_cfg | ]; simpl;
      [ | reflexivity].
    now destruct (openCommandSocket env sock_cfg _). }
  destruct (configureCommandChannel env w) as [w1 [[] | e]]; cbn [fst snd] in *;
    [ | discriminate].
  rewrite <- Hs, <- Hh. clear Hs Hh Hr.
  destruct w1 as [n t d m c h l]. unfold zoom, staging. simpl.
  destruct (loadLibraries env (hooks_config (getStagingCfg m)) h) as [h' r].
  simpl. repeat split. now rewrite <- app_assoc.
Qed.

End CommitSteps.

(** ** What the loop over the top-level keys keeps *)

Section KeptByTheLoop.

Context {T : Types} (env : Env T) {X : Type} (f : World T -> X).
Hypothesis f_staging : forall c w, f (set_staging c w) = f w.
Hypothesis f_call : forall c w, f (record_call c w) = f w.

Lemma keeps_refl (w : World T) : keeps f w w.
Proof. reflexivity. Qed.

Lemma keeps_trans (a b c : World T) : keeps f a b -> keeps f b c -> keeps f a c.
Proof. unfold keeps. congruence. Qed.

Lemma keeps_on_staging {A : Type} (m : M (SrvConfig T) A) :
  preserves (keeps f) (on_staging m).
Proof.
  intros w. unfold on_staging, zoom, keeps.
  destruct (m (staging w)) as [c r]. simpl. apply f_staging.
Qed.

Lemma keeps_on_part {Q A : Type} (proj : SrvConfig T -> Q)
  (upd : Q -> SrvConfig T -> SrvConfig T) (m : M Q A) :
  preserves (keeps f) (on_part proj upd m).
Proof. unfold on_part. apply keeps_on_staging. Qed.

Lemma keeps_section_parser {A : Type} key (m : M (World T) A) :
  preserves (keeps f) m -> preserves (keeps f) (section_parser key m).
Proof.
  intros Hm. unfold section_parser.
  apply preserves_bind; [apply keeps_trans | | intros _; exact Hm].
  apply preserves_modify. intros w. apply f_call.
Qed.

Ltac kept :=
  repeat first
    [ assumption
    | match goal with
      | H : _ = true -> preserves _ ?m |- preserves _ ?m =>
          apply H; first [assumption | reflexivity]
      end
    | apply preserves_ret; apply keeps_refl
    | apply preserves_throw; apply keeps_refl
    | apply preserves_lift_res; apply keeps_refl
    | apply preserves_gets; apply keeps_refl
    | apply keeps_on_staging
    | apply keeps_on_part
    | apply keeps_section_parser
    | apply preserves_bind; [apply keeps_trans | | intros ? ] ].

(** Every branch of the loop keeps [f], the one of "subnet6" if the
    subnet parser does. *)
Lemma parse_config_pair_keeps check_only first second :
  (String.eqb first "subnet6" = true ->
   preserves (keeps f) (parse_subnet6 env second)) ->
  preserves (keeps f) (parse_config_pair env check_only (first, second)).
Proof.
  intros Hsub. unfold parse_config_pair.
  repeat match goal with
         | |- preserves _ (if ?b then _ else _) => destruct b eqn:?
         end; kept; auto.
  destruct check_only; [destruct (set second _ _) | ]; kept.
Qed.

Lemma foreach_config_pair_keeps check_only values_map :
  (forall key second,
      In (key, second) values_map -> String.eqb key "subnet6" = true ->
      preserves (keeps f) (parse_subnet6 env second)) ->
  preserves (keeps f) (foreach_config_pair env check_only values_map).
Proof.
  induction values_map as [| [first second] rest IH]; intros Hsub;
    cbn [foreach_config_pair].
  - kept.
  - apply preserves_bind; [apply keeps_trans | | intros ? ].
    + apply parse_config_pair_keeps. intros E. eapply Hsub; [now left | exact E].
    + apply preserves_bind; [apply keeps_trans | | intros ?; kept].
      apply IH. intros key s Hin. apply (Hsub key s). now right.
Qed.

End KeptByTheLoop.

Section LoopProperties.

Context {T : Types} (env : Env T).

Lemma parse_subnet6_keeps_defs second :
  preserves (keeps (runtime_option_defs (T := T))) (parse_subnet6 env second).
Proof.
  intros w. unfold parse_subnet6, bind, gets, zoom, keeps.
  now destruct (Subnets6ListConfigParser_parse env (runtime_defs w) second _).
Qed.

Lemma definitions_first_keeps_counter cfg :
  preserves (keeps (subnet_static_id (T := T))) (definitions_first env cfg).
Proof.
  intros w. unfold definitions_first, keeps.
  destruct (get cfg "option-def") as [option_defs | ]; [ | reflexivity].
  unfold parse_option_defs, section_parser, bind, modify, zoom. simpl.
  now destruct (OptionDefListParser_parse env option_defs _).
Qed.

(** X11.  Whatever the keys that come before "subnet6" in the map, and
    whether or not their parsers fail, the subnet counter is 1 when the
    loop gets to "subnet6": only the subnet parser draws from it, so the
    subnets of each configuration are numbered from 1. *)
Theorem subnet_numbering_starts_at_one (derived : Element) (check_only : bool)
  (pre : list (string * Element)) (w : World T) :
  (forall key second, In (key, second) pre -> key <> "subnet6") ->
  subnet_static_id
    (fst ((definitions_first env derived ;;
           foreach_config_pair env check_only pre) (prepare env check_only w)))
  = 1.
Proof.
  intros Hpre.
  assert (H : preserves (keeps (subnet_static_id (T := T)))
                (definitions_first env derived ;;
                 foreach_config_pair env check_only pre)).
  { apply preserves_bind;
      [apply keeps_trans | apply definitions_first_keeps_counter | intros _].
    apply foreach_config_pair_keeps; try reflexivity.
    intros key second Hin E. apply String.eqb_eq in E.
    exfalso. exact (Hpre key second Hin E). }
  rewrite (H (prepare env check_only w)). now destruct check_only.
Qed.

(** X12.  For a tree without an "option-def" entry, the runtime option
    definitions that every parser sees, and that are left staged when
    the parsing block ends, are the empty container set at the start of
    the call; after a committed call they are the ones in force. *)
Theorem no_option_def_leaves_empty_definitions
  (mutable_cfg defaulted derived : Element) (check_only : bool) (w : World T) :
  setAllDefaults env mutable_cfg = Ret defaulted ->
  deriveParameters env defaulted = Ret derived ->
  get derived "option-def" = None ->
  runtime_option_defs
    (fst (parse_block env check_only mutable_cfg (prepare env check_only w)))
  = mkStagedValue (Some (empty_OptionDefSpaceContainer env))
      (committed_ (runtime_option_defs w))
  /\ (classify env (Some mutable_cfg) check_only w = Committed ->
      getValue (runtime_option_defs
                  (fst (configureDhcp6Server env (Some mutable_cfg) check_only w)))
      = empty_OptionDefSpaceContainer env).
Proof.
  intros Hd Hp Hg.
  assert (Hblock :
    runtime_option_defs
      (fst (parse_block env check_only mutable_cfg (prepare env check_only w)))
    = mkStagedValue (Some (empty_OptionDefSpaceContainer env))
        (committed_ (runtime_option_defs w))).
  { assert (H : preserves (keeps (runtime_option_defs (T := T)))
                  (parse_block env check_only mutable_cfg)).
    { unfold parse_block, lift_res. intros w0. unfold bind at 1. rewrite Hd.
      unfold bind at 1. rewrite Hp. revert w0.
      apply preserves_bind; [apply keeps_trans | | intros values_map].
      { destruct (mapValue derived);
          [apply preserves_ret | apply preserves_throw]; apply keeps_refl. }
      apply preserves_bind; [apply keeps_trans | | intros _].
      { unfold definitions_first. rewrite Hg. apply preserves_ret, keeps_refl. }
      apply preserves_bind; [apply keeps_trans | | intros values_map'].
      { apply foreach_config_pair_keeps; try reflexivity.
        intros key second _ _. apply parse_subnet6_keeps_defs. }
      apply keeps_on_staging. reflexivity. }
    rewrite (H (prepare env check_only w)). now destruct check_only. }
  split; [exact Hblock | ].
  unfold classify. rewrite configure_paths.
  destruct (parse_block env check_only mutable_cfg (prepare env check_only w))
    as [w1 [[] | e]]; [ | discriminate].
  destruct check_only; [discriminate | ].
  pose proof (commit_block_frame env w1) as [_ _ Hdefs _ _].
  destruct (commit_block env w1) as [w2 [[] | e]]; [ | discriminate].
  intros _. simpl in *. rewrite Hdefs, Hblock. reflexivity.
Qed.

(** X14.  The loop over a map is the loop over its first part followed by
    the loop over the rest, run in the world that the first part left;
    the first exception ends it, and the pairs that follow the one that
    threw are not looked at. *)
Theorem loop_over_concatenation (check_only : bool)
  (pre post : list (string * Element)) (w : World T) :
  foreach_config_pair env check_only (pre ++ post) w
  = match foreach_config_pair env check_only pre w with
    | (w1, Throw e) => (w1, Throw e)
    | (w1, Ret pre') =>
        match foreach_config_pair env check_only post w1 with
        | (w2, Throw e) => (w2, Throw e)
        | (w2, Ret post') => (w2, Ret (pre' ++ post'))
        end
    end.
Proof.
  revert w. induction pre as [| config_pair pre IH]; intros w.
  - cbn [app foreach_config_pair]. unfold ret.
    now destruct (foreach_config_pair env check_only post w) as [w2 [post' | e]].
  - cbn [app]. rewrite !foreach_config_pair_cons.
    destruct (parse_config_pair env check_only config_pair w) as [w0 [second | e]];
      [ | reflexivity].
    rewrite IH.
    destruct (foreach_config_pair env check_only pre w0) as [w1 [pre' | e]];
      [ | reflexivity].
    now destruct (foreach_config_pair env check_only post w1) as [w2 [post' | e]].
Qed.

(** X16.  The loop passes over the six global scalars and over
    "option-def" without calling a parser and without looking at their
    values: the world is unchanged and nothing is thrown, whatever the
    element under the key. *)
Theorem loop_skips_global_scalars (check_only : bool) (first : string)
  (second : Element) (w : World T) :
  global_scalar first = true \/ first = "option-def" ->
  parse_config_pair env check_only (first, second) w = (w, Ret second).
Proof.
  intros [H | ->]; [ | reflexivity].
  unfold global_scalar in H.
  repeat match goal with
         | H : _ || _ = true |- _ => apply orb_true_iff in H; destruct H as [H | H]
         end;
    apply String.eqb_eq in H; subst first; reflexivity.
Qed.

End LoopProperties.

(** ** More on the outcome of [configureDhcp6Server] *)

Section MoreOutcomes.

Context {T : Types} (env : Env T).

(** X10.  A call that is not check-only and is given a tree unregisters
    the timers before anything is parsed, and nothing brings them back:
    whatever the outcome, a rejected configuration included, the timer
    manager after the call is the one that [unregisterTimers] left. *)
Theorem timers_unregistered_whatever_outcome (mutable_cfg : Element) (w : World T) :
  timer_mgr (fst (configureDhcp6Server env (Some mutable_cfg) false w))
  = unregisterTimers env (timer_mgr w).
Proof.
  pose proof (configureDhcp6Server_configured env mutable_cfg false w) as H.
  pose proof (prepare_spec env false w) as Hs. cbv zeta in Hs.
  destruct Hs as (_ & _ & _ & _ & _ & _ & Ptimers).
  destruct H as [w1 e E1 F1 | w1 Ec E1 F1 | w1 w2 e Ec E1 F1 E2 F2
                | w1 w2 Ec E1 F1 E2 F2];
    try discriminate;
    destruct F1 as [_ _ _ _ F1timers _ _];
    try destruct F2 as [_ _ _ _ F2timers];
    unfold revertRuntimeOptionDefs; simpl; congruence.
Qed.

(** X13.  The text of the answer, by outcome: the fixed text for an
    absent tree; for a failure of the parsing or of the commit block the
    text of the exception if it is an [isc::Exception] and a fixed text
    otherwise (what a standard exception says is not reported); the
    "seems sane" text for a checked configuration and "Configuration
    successful." for a committed one. *)
Theorem answer_text_by_outcome (config_set : option Element) (check_only : bool)
  (w : World T) :
  exists a,
    snd (configureDhcp6Server env config_set check_only w) = Some a
    /\ text a
       = match classify env config_set check_only w with
         | AbsentInput => "Can't parse NULL config"
         | ParseFailure (IscException what) => what
         | ParseFailure _ => "undefined configuration processing error"
         | CheckedOnly => sane_text
         | CommitFailure (IscException what) => what
         | CommitFailure _ => "undefined configuration parsing error"
         | Committed => "Configuration successful."
         end.
Proof.
  destruct config_set as [mutable_cfg | ].
  - destruct (configureDhcp6Server_configured env mutable_cfg check_only w)
      as [w1 e E1 F1 | w1 Ec E1 F1 | w1 w2 e Ec E1 F1 E2 F2 | w1 w2 Ec E1 F1 E2 F2];
      eexists; (split; [reflexivity | ]); try reflexivity;
      destruct e; reflexivity.
  - eexists. split; reflexivity.
Qed.

Lemma find_map_set_same m name v : find (map_set m name v) name = Some v.
Proof.
  induction m as [| [k x] rest IH]; cbn [map_set find].
  - now rewrite String.eqb_refl.
  - destruct (String.eqb k name) eqn:E.
    + cbn [find]. now rewrite String.eqb_refl.
    + destruct (String.ltb name k); cbn [find].
      * now rewrite String.eqb_refl.
      * now rewrite E.
Qed.

Lemma find_map_set_other m name v other :
  other <> name -> find (map_set m name v) other = find m other.
Proof.
  intros Hne.
  assert (Hno : String.eqb name other = false)
    by (apply String.eqb_neq; congruence).
  induction m as [| [k x] rest IH]; cbn [map_set find].
  - now rewrite Hno.
  - destruct (String.eqb_spec k name) as [-> | Hk].
    + cbn [find]. now rewrite Hno.
    + destruct (String.ltb name k); cbn [find].
      * now rewrite Hno.
      * now rewrite IH.
Qed.

(** X15.  In check-only mode the interfaces parser is given the
    "interfaces-config" map with "re-detect" set to false, whatever that
    entry was or whether it was there, and with every other entry as in
    the tree; a value that is not a map is refused before the parser is
    called.  Outside check-only mode the parser is given the element of
    the tree as it is. *)
Theorem check_only_switches_redetect_off (p : Position)
  (m : list (string * Element)) (w : World T) :
  let second := MapElement p m in
  let edited := MapElement p (map_set m "re-detect" (BoolElement ZERO_POSITION false)) in
  parse_config_pair env true ("interfaces-config", second) w
  = (section_parser "interfaces-config"
       (on_part cfg_iface set_cfg_iface (IfacesConfigParser_parse env edited)) ;;
     ret edited) w
  /\ get edited "re-detect" = Some (BoolElement ZERO_POSITION false)
  /\ (forall name, name <> "re-detect" -> get edited name = get second name)
  /\ parse_config_pair env false ("interfaces-config", second) w
     = (section_parser "interfaces-config"
          (on_part cfg_iface set_cfg_iface (IfacesConfigParser_parse env second)) ;;
        ret second) w
  /\ (forall other,
         mapValue other = None ->
         parse_config_pair env true ("interfaces-config", other) w
         = (w, Throw (IscException
                        (TypeError_what env "set() called on non-map Element" other)))).
Proof.
  cbv zeta. split; [reflexivity | ].
  split; [apply find_map_set_same | ].
  split; [intros name Hn; now apply find_map_set_other | ].
  split; [reflexivity | ].
  intros other Ho. destruct other; try discriminate; reflexivity.
Qed.

Lemma foreach_config_pair_keys check_only values_map (w w' : World T) values_map' :
  foreach_config_pair env check_only values_map w = (w', Ret values_map') ->
  map fst values_map' = map fst values_map.
Proof.
  revert w w' values_map'.
  induction values_map as [| config_pair rest IH]; intros w w' values_map'.
  - cbn [foreach_config_pair]. unfold ret. now intros [= _ <-].
  - rewrite foreach_config_pair_cons.
    destruct (parse_config_pair env check_only config_pair w) as [w0 [second | e]];
      [ | discriminate].
    destruct (foreach_config_pair env check_only rest w0) as [w1 [rest' | e]] eqn:E;
      [ | discriminate].
    intros [= _ <-]. cbn [map fst]. f_equal. eapply IH. exact E.
Qed.

Lemma parse_block_steps mutable_cfg defaulted derived values_map check_only
  (w : World T) :
  setAllDefaults env mutable_cfg = Ret defaulted ->
  deriveParameters env defaulted = Ret derived ->
  mapValue derived = Some values_map ->
  parse_block env check_only mutable_cfg w
  = match definitions_first env derived w with
    | (w0, Throw e) => (w0, Throw e)
    | (w0, Ret _) =>
        match foreach_config_pair env check_only values_map w0 with
        | (w1, Throw e) => (w1, Throw e)
        | (w1, Ret values_map') =>
            on_staging
              (Dhcp6ConfigParser_parse env
                 (MapElement (getPosition derived) values_map')) w1
        end
    end.
Proof.
  intros Hd Hp Hm. unfold parse_block, bind at 1, lift_res. rewrite Hd.
  unfold bind at 1. rewrite Hp. unfold bind at 1. rewrite Hm. unfold ret at 1.
  unfold bind at 1.
  destruct (definitions_first env derived w) as [w0 [[] | e]]; [ | reflexivity].
  unfold bind at 1.
  now destruct (foreach_config_pair env check_only values_map w0)
    as [w1 [values_map' | e]].
Qed.

End MoreOutcomes.

(** ** These properties on concrete runs *)

Section MoreConcreteRuns.

Import Sample Runs MoreRuns.

Lemma rsoo_error_ends_with_position_run :
  exists what,
    snd (RSOOListConfigParser_parse env middle_refused empty_config)
    = Throw (IscException (what ++ " (kea.conf:2:3)")%string).
Proof.
  destruct (RSOOListConfigParser_parse env middle_refused empty_config)
    as [cfg' [[] | e]] eqn:E.
  - vm_compute in E. discriminate.
  - destruct (rsoo_error_ends_with_position env _ _ _ _ E) as [what ->].
    exists what. reflexivity.
Defined.

Lemma rsoo_enables_every_entry_run :
  RSOOListConfigParser_parse env two_entries empty_config
  = (set_cfg_rsoo (T := types) [38; 12] empty_config, Ret tt).
Proof.
  apply (rsoo_enables_every_entry env two_entries
           [StringElement (at_ 2 4) "12"; StringElement (at_ 2 9) "subscriber-id"]
           [12; 38] empty_config eq_refl).
  repeat constructor.
Defined.

Lemma rsoo_stops_at_first_refused_run :
  exists what,
    RSOOListConfigParser_parse env middle_refused empty_config
    = (set_cfg_rsoo (T := types) [12] empty_config,
       Throw (IscException (what ++ " (kea.conf:2:3)")%string)).
Proof.
  apply (rsoo_stops_at_first_refused env (at_ 2 3)
           [StringElement (at_ 2 4) "12"] [StringElement (at_ 2 27) "13"]
           (StringElement (at_ 2 9) "no-such-option") [12] empty_config).
  - repeat constructor.
  - reflexivity.
Defined.

Lemma rsoo_code_origin_run :
  (lexical_cast_int64 "subscriber-id" = Some 38 /\ 1 <= 38 <= 65535)
  \/ (getOptionDef env "dhcp6" "subscriber-id" = Some 38
      /\ (lexical_cast_int64 "subscriber-id" = None
          \/ lexical_cast_int64 "subscriber-id" = Some 0)).
Proof. exact (rsoo_code_origin env "subscriber-id" 38 eq_refl). Defined.

(** The port is refused after the period has been stored. *)
Example period_stored_before_port_refused :
  Dhcp6ConfigParser_parse env port_out_of_range empty_config
  = (setDeclinePeriod 10 empty_config,
     Throw (IscException
              "out of range value specified for parameter 'dhcp4o6-port'")).
Proof. reflexivity. Qed.

Lemma commit_stops_when_channel_fails_run :
  let w' := fst (commit_block env_socket_fails staged_socket) in
  snd (commit_block env_socket_fails staged_socket)
  = Throw (IscException "unable to bind to the control socket")
  /\ d2_client_mgr (cfg_mgr w') = d2_client_mgr (cfg_mgr staged_socket)
  /\ hooks_manager w' = hooks_manager staged_socket
  /\ exists sock_cfg,
       control_socket_info (staging staged_socket) = Some sock_cfg
       /\ calls w'
          = calls staged_socket ++ [CloseCommandSocket; OpenCommandSocket sock_cfg]
       /\ openCommandSocket env_socket_fails sock_cfg
            (closeCommandSocket env_socket_fails (command_mgr staged_socket))
          = (command_mgr w',
             Throw (IscException "unable to bind to the control socket")).
Proof.
  exact (commit_stops_when_channel_fails env_socket_fails staged_socket
           (IscException "unable to bind to the control socket") eq_refl).
Defined.

(** The second library does not load: the first one stays loaded, the D2
    configuration is replaced and the socket is open. *)
Lemma d2_applied_before_hooks_load_run :
  let w' := fst (commit_block env staged_socket) in
  snd (commit_block env staged_socket)
  = Throw (IscException "hooks libraries failed to load")
  /\ hooks_manager w' = ["a.so"]
  /\ d2_client_mgr (cfg_mgr w') = Some socket
  /\ command_mgr w' = Some socket
  /\ calls w'
     = [CloseCommandSocket; OpenCommandSocket socket; SetD2ClientConfig; LoadLibraries].
Proof.
  exact (d2_applied_before_hooks_load env staged_socket eq_refl).
Defined.

Lemma subnet_numbering_starts_at_one_run :
  subnet_static_id
    (fst ((definitions_first env data_and_defs ;;
           foreach_config_pair env false
             [ ("option-data", ListElement (at_ 2 3) []);
               ("relay-supplied-options",
                ListElement (at_ 2 3) [StringElement (at_ 2 4) "-1"]) ])
            (prepare env false other_counter)))
  = 1.
Proof.
  apply (subnet_numbering_starts_at_one env data_and_defs false
           [ ("option-data", ListElement (at_ 2 3) []);
             ("relay-supplied-options",
              ListElement (at_ 2 3) [StringElement (at_ 2 4) "-1"]) ]
           other_counter).
  intros key second [H | [H | []]]; injection H as <- _; discriminate.
Defined.

Lemma no_option_def_leaves_empty_definitions_run :
  runtime_option_defs
    (fst (parse_block env false rsoo_12 (prepare env false other_counter)))
  = mkStagedValue (Some []) []
  /\ (classify env (Some rsoo_12) false other_counter = Committed ->
      getValue (runtime_option_defs
                  (fst (configureDhcp6Server env (Some rsoo_12) false other_counter)))
      = []).
Proof.
  refine (no_option_def_leaves_empty_definitions env rsoo_12 _ _ false
            other_counter _ _ _); reflexivity.
Defined.

Lemma loop_skips_global_scalars_run :
  parse_config_pair env false ("renew-timer", StringElement top "soon") initial
  = (initial, Ret (StringElement top "soon")).
Proof.
  exact (loop_skips_global_scalars env false "renew-timer"
           (StringElement top "soon") initial (or_introl eq_refl)).
Defined.

(** "re-detect" was true in the tree; the interfaces parser of a
    check-only call sees it false. *)
Example redetect_off_for_the_interfaces_parser :
  get ifaces "re-detect" = Some (BoolElement (at_ 4 9) true)
  /\ match set ifaces "re-detect" (BoolElement ZERO_POSITION false) with
     | Some edited => get edited "re-detect"
     | None => None
     end
     = Some (BoolElement ZERO_POSITION false).
Proof. split; reflexivity. Qed.

End MoreConcreteRuns.

(** ** Option definitions before everything else *)

Section OptionDefinitionsFirst.

Context {T : Types} (env : Env T).

(** The option-definition pass, in terms of what the parser returns: the
    call is recorded, the option definitions of the staging
    configuration and the staged runtime definitions become the ones the
    parser left, and its outcome is the outcome of the pass. *)
Lemma parse_option_defs_result option_defs (w : World T) :
  let parsed :=
    OptionDefListParser_parse env option_defs
      (cfg_option_def (staging w), staged_ (runtime_option_defs w)) in
  parse_option_defs env option_defs w
  = (set_runtime_option_defs
       (mkStagedValue (snd (fst parsed)) (committed_ (runtime_option_defs w)))
       (set_staging (set_cfg_option_def (fst (fst parsed)) (staging w))
          (record_call (SectionParser "option-def") w)),
     snd parsed).
Proof.
  cbv zeta. unfold parse_option_defs, section_parser, bind, modify, zoom. simpl.
  now destruct (OptionDefListParser_parse env option_defs _) as [[d p] r].
Qed.

(** C8.  For a tree whose defaulted and derived form has an "option-def"
    entry, the parsing block first runs the option-definition parser on
    the option definitions of the staging configuration.  What the
    parser stored is in the staging configuration, and what it staged as
    runtime definitions is staged in libdhcp++, before any other parser
    runs: the loop over the keys and the global parser run, only if the
    parser returned, in the world it left.  Hence the first Section
    Parser called is the one of option definitions, every other call of
    a Section Parser comes after it whatever the order of the keys, and
    none is made when it throws.  No branch of the loop changes the
    runtime definitions, so when the loop gets to "option-data",
    wherever that key is in the map, the option-data parser is handed
    the runtime definitions that the option-definition parser left. *)
Theorem option_definitions_parsed_first (mutable_cfg defaulted derived : Element)
  (check_only : bool) (w : World T)
  (values_map : list (string * Element)) (option_defs : Element) :
  setAllDefaults env mutable_cfg = Ret defaulted ->
  deriveParameters env defaulted = Ret derived ->
  mapValue derived = Some values_map ->
  get derived "option-def" = Some option_defs ->
  let parsed :=
    OptionDefListParser_parse env option_defs
      (cfg_option_def (staging w), staged_ (runtime_option_defs w)) in
  let w1 :=
    set_runtime_option_defs
      (mkStagedValue (snd (fst parsed)) (committed_ (runtime_option_defs w)))
      (set_staging (set_cfg_option_def (fst (fst parsed)) (staging w))
         (record_call (SectionParser "option-def") w)) in
  parse_block env check_only mutable_cfg w
  = match snd parsed with
    | Throw e => (w1, Throw e)
    | Ret _ =>
        (values_map' <- foreach_config_pair env check_only values_map ;;
         on_staging
           (Dhcp6ConfigParser_parse env
              (MapElement (getPosition derived) values_map'))) w1
    end
  /\ cfg_option_def (staging w1) = fst (fst parsed)
  /\ runtime_defs w1
     = match snd (fst parsed) with
       | Some staged => staged
       | None => committed_ (runtime_option_defs w)
       end
  /\ (exists rest,
         calls (fst (parse_block env check_only mutable_cfg w))
         = calls w ++ SectionParser "option-def" :: rest
         /\ Forall later_section rest
         /\ (forall e, snd parsed = Throw e -> rest = []))
  /\ (forall pre second post w2 pre',
         values_map = pre ++ ("option-data", second) :: post ->
         foreach_config_pair env check_only pre w1 = (w2, Ret pre') ->
         runtime_option_defs w2 = runtime_option_defs w1
         /\ parse_config_pair env check_only ("option-data", second) w2
            = (section_parser "option-data"
                 (on_part cfg_option set_cfg_option
                    (OptionDataListParser_parse env (runtime_defs w1) second)) ;;
               ret second) w2).
Proof.
  intros Hd Hp Hm Hg. cbv zeta.
  pose proof (parse_option_defs_result option_defs w) as Hdefs. cbv zeta in Hdefs.
  set (parsed := OptionDefListParser_parse env option_defs
                   (cfg_option_def (staging w), staged_ (runtime_option_defs w)))
    in *.
  set (w1 := set_runtime_option_defs
               (mkStagedValue (snd (fst parsed)) (committed_ (runtime_option_defs w)))
               (set_staging (set_cfg_option_def (fst (fst parsed)) (staging w))
                  (record_call (SectionParser "option-def") w))) in *.
  assert (Hblock :
    parse_block env check_only mutable_cfg w
    = match snd parsed with
      | Throw e => (w1, Throw e)
      | Ret _ =>
          (values_map' <- foreach_config_pair env check_only values_map ;;
           on_staging
             (Dhcp6ConfigParser_parse env
                (MapElement (getPosition derived) values_map'))) w1
      end).
  { unfold parse_block, bind at 1, lift_res. rewrite Hd.
    unfold bind at 1. rewrite Hp. unfold bind at 1. rewrite Hm. unfold ret at 1.
    unfold bind at 1, definitions_first. rewrite Hg, Hdefs.
    destruct (snd parsed) as [[] | e]; reflexivity. }
  split; [exact Hblock | ].
  split; [reflexivity | ].
  split; [reflexivity | ].
  split.
  - rewrite Hblock. destruct (snd parsed) as [[] | e].
    + assert (Hrest : preserves (parse_frame (T := T) later_section)
                (values_map' <- foreach_config_pair env check_only values_map ;;
                 on_staging
                   (Dhcp6ConfigParser_parse env
                      (MapElement (getPosition derived) values_map')))).
      { apply preserves_bind;
          [apply parse_frame_trans | apply foreach_config_pair_frame | intros ? ].
        apply on_staging_frame. }
      destruct (Hrest w1) as [_ _ _ _ _ _ [new [Hn Hf]]].
      exists new. split; [ | split].
      * rewrite Hn. unfold w1. simpl. now rewrite <- app_assoc.
      * exact Hf.
      * discriminate.
    + exists []. split; [reflexivity | split; [constructor | reflexivity]].
  - intros pre second post w2 pre' _ Hpre.
    assert (Hkeep : runtime_option_defs w2 = runtime_option_defs w1).
    { pose proof (foreach_config_pair_keeps env (runtime_option_defs (T := T))
                    (fun _ _ => eq_refl) (fun _ _ => eq_refl) check_only pre
                    (fun key s _ _ => parse_subnet6_keeps_defs env s) w1) as H.
      rewrite Hpre in H. exact H. }
    split; [exact Hkeep | ].
    unfold parse_config_pair. cbn [String.eqb Ascii.eqb Bool.eqb].
    unfold section_parser, bind, modify, gets, runtime_defs. simpl.
    rewrite Hkeep. reflexivity.
Qed.

End OptionDefinitionsFirst.

(** ** The command channel leaves the configurations and the hooks *)

Section ChannelState.

Context {T : Types} (env : Env T).


End ChannelState.

(** ** Two runs of the same call *)

Section Respect.

Context {S : Type} (R : S -> S -> Prop).








End Respect.

Section TwoCalls.

Context {T : Types} (env : Env T).













End TwoCalls.

Section SameTreeAgain.

Context {T : Types} (env : Env T).




End SameTreeAgain.

(** ** The tree that the global parser reads *)

Section TreeLeftByTheLoop.

Context {T : Types} (env : Env T).

Lemma bind_ret_value {S A B : Type} (m : M S A) (x : B) (s s' : S) (v : B) :
  bind m (fun _ => ret x) s = (s', Ret v) -> v = x.
Proof.
  unfold bind, ret. destruct (m s) as [s0 [a | e]]; [ | discriminate].
  now intros [= _ <-].
Qed.

Lemma parse_config_pair_leaves check_only first second (w w' : World T) second' :
  parse_config_pair env check_only (first, second) w = (w', Ret second') ->
  left_by_loop env check_only (first, second) (first, second').
Proof.
  assert (Hsame : second' = second ->
                  left_by_loop env check_only (first, second) (first, second')).
  { intros ->. split; [reflexivity | now left]. }
  unfold parse_config_pair.
  repeat match goal with
         | |- (if String.eqb first ?k then _ else _) _ = _ -> _ =>
             destruct (String.eqb_spec first k)
         | |- (if global_scalar first then _ else _) _ = _ -> _ =>
             destruct (global_scalar first)
         end;
    try (intros H; apply Hsame; solve [ eapply bind_ret_value; exact H
                                     | now injection H ]);
    try discriminate.
  - (* interfaces-config *)
    destruct check_only.
    + destruct (set second "re-detect" (BoolElement ZERO_POSITION false))
        as [edited | ] eqn:E; [ | discriminate].
      unfold bind at 1, ret at 1. intros H.
      apply bind_ret_value in H. subst second'.
      split; [reflexivity | ]. right. left. cbn [fst snd]. auto.
    + unfold bind at 1, ret at 1. intros H.
      apply bind_ret_value in H. now apply Hsame.
  - (* dhcp-ddns *)
    intros H.
    unfold section_parser, bind, modify, lift_res, on_staging, zoom, ret in H.
    destruct (D2ClientConfigParser_setAllDefaults env second)
      as [defaulted | err] eqn:E; simpl in H; [ | discriminate].
    destruct (D2ClientConfigParser_parse env defaulted) as [cfg | err];
      simpl in H; [ | discriminate].
    injection H as _ <-.
    split; [reflexivity | ]. right. right. cbn [fst snd]. auto.
Qed.

Lemma foreach_config_pair_leaves check_only values_map (w w' : World T) values_map' :
  foreach_config_pair env check_only values_map w = (w', Ret values_map') ->
  Forall2 (left_by_loop env check_only) values_map values_map'.
Proof.
  revert w w' values_map'.
  induction values_map as [| [first second] rest IH]; intros w w' values_map'.
  - cbn [foreach_config_pair]. unfold ret. intros [= _ <-]. constructor.
  - rewrite foreach_config_pair_cons.
    destruct (parse_config_pair env check_only (first, second) w)
      as [w0 [second' | e]] eqn:E0; [ | discriminate].
    destruct (foreach_config_pair env check_only rest w0) as [w1 [rest' | e]] eqn:E;
      [ | discriminate].
    intros [= _ <-]. constructor.
    + eapply parse_config_pair_leaves. exact E0.
    + eapply IH. exact E.
Qed.

Lemma find_left_by_loop check_only values_map values_map' name :
  Forall2 (left_by_loop env check_only) values_map values_map' ->
  name <> "interfaces-config" -> name <> "dhcp-ddns" ->
  find values_map' name = find values_map name.
Proof.
  intros H Hi Hd.
  induction H as [| [k v] [k' v'] rest rest' [Hk Hv] _ IH]; [reflexivity | ].
  cbn [fst snd] in *. subst k'. cbn [find].
  destruct (String.eqb_spec k name) as [-> | Hne]; [ | exact IH].
  destruct Hv as [-> | [[Hn _] | [Hn _]]]; [reflexivity | | ]; contradiction.
Qed.

(** X17.  When the parsing block returns, the global parser has been
    given the tree after default filling and derivation with its
    elements as the loop left them: every entry is the one of that tree,
    except "interfaces-config" in check-only mode (edited for
    "re-detect") and "dhcp-ddns" (after its own default filling).  The
    decline probation period and the DHCPv4-over-DHCPv6 port of the
    staging configuration are what [getUint32] and [getUint16] read from
    it: the global parser runs last, so nothing a Section Parser stored
    in these two fields survives it. *)
Theorem staged_scalars_come_from_tree (mutable_cfg : Element) (check_only : bool)
  (w : World T) :
  snd (parse_block env check_only mutable_cfg w) = Ret tt ->
  exists defaulted derived values_map w0 w1 values_map',
    setAllDefaults env mutable_cfg = Ret defaulted
    /\ deriveParameters env defaulted = Ret derived
    /\ mapValue derived = Some values_map
    /\ definitions_first env derived w = (w0, Ret tt)
    /\ foreach_config_pair env check_only values_map w0 = (w1, Ret values_map')
    /\ Forall2 (left_by_loop env check_only) values_map values_map'
    /\ (forall name,
           name <> "interfaces-config" -> name <> "dhcp-ddns" ->
           get (MapElement (getPosition derived) values_map') name
           = get derived name)
    /\ getUint32 env (MapElement (getPosition derived) values_map')
         "decline-probation-period"
       = Ret (decline_period
                (staging (fst (parse_block env check_only mutable_cfg w))))
    /\ getUint16 env (MapElement (getPosition derived) values_map') "dhcp4o6-port"
       = Ret (dhcp4o6_port
                (staging (fst (parse_block env check_only mutable_cfg w)))).
Proof.
  intros H.
  destruct (setAllDefaults env mutable_cfg) as [defaulted | e] eqn:Hd;
    [ | exfalso; revert H; unfold parse_block, bind, lift_res; rewrite Hd;
        discriminate].
  destruct (deriveParameters env defaulted) as [derived | e] eqn:Hp;
    [ | exfalso; revert H; unfold parse_block, bind, lift_res; rewrite Hd, Hp;
        discriminate].
  destruct (mapValue derived) as [values_map | ] eqn:Hm;
    [ | exfalso; revert H; unfold parse_block, bind, lift_res;
        rewrite Hd, Hp, Hm; discriminate].
  rewrite (parse_block_steps env _ _ _ _ check_only w Hd Hp Hm) in *.
  destruct (definitions_first env derived w) as [w0 [[] | e]] eqn:E0;
    [ | discriminate].
  destruct (foreach_config_pair env check_only values_map w0)
    as [w1 [values_map' | e]] eqn:E; [ | discriminate].
  pose proof (foreach_config_pair_leaves _ _ _ _ _ E) as Hleft.
  exists defaulted, derived, values_map, w0, w1, values_map'.
  split; [reflexivity | ]. split; [exact Hp | ]. split; [exact Hm | ].
  split; [exact E0 | ]. split; [exact E | ]. split; [exact Hleft | ].
  split.
  - intros name Hi Hdd. destruct derived; try discriminate.
    injection Hm as ->. cbn [get].
    eapply find_left_by_loop; eassumption.
  - revert H.
    unfold on_staging, zoom, Dhcp6ConfigParser_parse, bind, lift_res, modify.
    destruct (getUint32 env (MapElement (getPosition derived) values_map')
                "decline-probation-period") as [period | e]; [ | discriminate].
    destruct (getUint16 env (MapElement (getPosition derived) values_map')
                "dhcp4o6-port") as [port | e]; [ | discriminate].
    intros _. split; reflexivity.
Qed.

End TreeLeftByTheLoop.

(** ** The order of the parsers and the two-call properties on concrete runs *)

Section LastConcreteRuns.

Import Sample Runs MoreRuns.

(** "option-data" comes first in the map; the option definition "foo" is
    in the staging configuration and staged in libdhcp++ before the
    option-data parser is called, and it is what that parser is
    handed. *)
Lemma option_definitions_parsed_first_run :
  let w := prepare env false initial in
  let w1 :=
    fst (parse_option_defs env
           (ListElement (at_ 3 3) [StringElement (at_ 3 4) "foo"]) w) in
  cfg_option_def (staging w1) = [StringElement (at_ 3 4) "foo"]
  /\ runtime_defs w1 = [StringElement (at_ 3 4) "foo"]
  /\ (exists rest,
         calls (fst (parse_block env false data_and_defs w))
         = calls w ++ SectionParser "option-def" :: rest
         /\ Forall later_section rest)
  /\ parse_config_pair env false ("option-data", ListElement (at_ 2 3) []) w1
     = (section_parser "option-data"
          (on_part cfg_option set_cfg_option
             (OptionDataListParser_parse env [StringElement (at_ 3 4) "foo"]
                (ListElement (at_ 2 3) []))) ;;
        ret (ListElement (at_ 2 3) [])) w1.
Proof.
  cbv zeta.
  pose proof (option_definitions_parsed_first env data_and_defs
                (MapElement top
                   [ ("decline-probation-period", IntElement ZERO_POSITION 86400);
                     ("dhcp4o6-port", IntElement ZERO_POSITION 0);
                     ("option-data", ListElement (at_ 2 3) []);
                     ("option-def",
                      ListElement (at_ 3 3) [StringElement (at_ 3 4) "foo"]) ])
                (MapElement top
                   [ ("decline-probation-period", IntElement ZERO_POSITION 86400);
                     ("dhcp4o6-port", IntElement ZERO_POSITION 0);
                     ("option-data", ListElement (at_ 2 3) []);
                     ("option-def",
                      ListElement (at_ 3 3) [StringElement (at_ 3 4) "foo"]) ])
                false (prepare env false initial)
                [ ("decline-probation-period", IntElement ZERO_POSITION 86400);
                  ("dhcp4o6-port", IntElement ZERO_POSITION 0);
                  ("option-data", ListElement (at_ 2 3) []);
                  ("option-def",
                   ListElement (at_ 3 3) [StringElement (at_ 3 4) "foo"]) ]
                (ListElement (at_ 3 3) [StringElement (at_ 3 4) "foo"])
                eq_refl eq_refl eq_refl eq_refl) as H.
  cbv zeta in H. destruct H as (_ & Hdefs & Hstaged & Hcalls & Hdata).
  split; [exact Hdefs | ]. split; [exact Hstaged | ].
  split.
  - destruct Hcalls as (rest & Hc & Hf & _). exists rest. split; assumption.
  - exact (proj2 (Hdata
                    [ ("decline-probation-period", IntElement ZERO_POSITION 86400);
                      ("dhcp4o6-port", IntElement ZERO_POSITION 0) ]
                    (ListElement (at_ 2 3) [])
                    [ ("option-def",
                       ListElement (at_ 3 3) [StringElement (at_ 3 4) "foo"]) ]
                    _ _ eq_refl eq_refl)).
Defined.


(** The committed call has made calls and opened nothing; the world it
    leaves differs from the initial one, and the second application
    still assembles the same configuration. *)
Example second_application_same_content :
  let first := configureDhcp6Server env (Some rsoo_13) false initial in
  let again :=
    configureDhcp6Server env (Some rsoo_13) false
      (set_staging (staging initial) (fst first)) in
  calls (fst first) <> calls initial
  /\ cfg_rsoo (staging (fst first)) = [13]
  /\ cfg_rsoo (staging (fst again)) = [13]
  /\ snd again = snd first.
Proof. vm_compute. repeat split. discriminate. Qed.

Lemma staged_scalars_come_from_tree_run :
  exists defaulted derived values_map w0 w1 values_map',
    setAllDefaults env scalars_10_20 = Ret defaulted
    /\ deriveParameters env defaulted = Ret derived
    /\ mapValue derived = Some values_map
    /\ definitions_first env derived initial = (w0, Ret tt)
    /\ foreach_config_pair env false values_map w0 = (w1, Ret values_map')
    /\ Forall2 (left_by_loop env false) values_map values_map'
    /\ (forall name,
           name <> "interfaces-config" -> name <> "dhcp-ddns" ->
           get (MapElement (getPosition derived) values_map') name
           = get derived name)
    /\ getUint32 env (MapElement (getPosition derived) values_map')
         "decline-probation-period"
       = Ret (decline_period
                (staging (fst (parse_block env false scalars_10_20 initial))))
    /\ getUint16 env (MapElement (getPosition derived) values_map') "dhcp4o6-port"
       = Ret (dhcp4o6_port
                (staging (fst (parse_block env false scalars_10_20 initial)))).
Proof.
  exact (staged_scalars_come_from_tree env scalars_10_20 false initial eq_refl).
Defined.

Example scalars_of_the_tree_are_staged :
  let cfg := staging (fst (parse_block env false scalars_10_20 initial)) in
  decline_period cfg = 10 /\ dhcp4o6_port cfg = 20.
Proof. split; reflexivity. Qed.

End LastConcreteRuns.
